(** * optimization-detector: the preprocessing pipeline of [src/preprocess.py]

    A shallow embedding of [preprocess.py] and the properties of its
    functions.  Python values are modelled as follows:

    - [str] as [string], [bytes] as [list byte], [int] as [Z], [bool] as [bool],
      [float] as the kernel's binary64 numbers, whose operations are specified
      by [SpecFloat];
    - a raised exception as the [Err] case of [result];
    - a loop that may run for ever as a function with a fuel argument that
      answers [None] when the fuel is exhausted;
    - the objects a run shares (the two stores, the disk, the random source)
      as one [World] record threaded through the calls. *)

From Stdlib Require Import ZArith QArith Qabs Qround Qpower Floats Uint63 Lia Lqa.
From Stdlib.Strings Require Import String Ascii Byte.
From Stdlib Require Import List Permutation.
From stdpp Require Import gmap strings list fin_maps.

Local Open Scope string_scope.
Local Open Scope list_scope.
Local Open Scope Z_scope.

(** ** Exceptions and results *)

Inductive exn : Type :=
  | TypeError (msg : string)
  | ValueError (msg : string)
  | OverflowError (msg : string)
  | FileNotFoundError (msg : string).

Inductive result (A : Type) : Type :=
  | Ok (a : A)
  | Err (e : exn).
Arguments Ok {A} a.
Arguments Err {A} e.

Definition is_FileNotFoundError (e : exn) : bool :=
  match e with FileNotFoundError _ => true | _ => false end.

Definition rbind {A B} (r : result A) (k : A -> result B) : result B :=
  match r with Ok a => k a | Err e => Err e end.

Fixpoint rmap {A B} (f : A -> result B) (l : list A) : result (list B) :=
  match l with
  | [] => Ok []
  | a :: l' => rbind (f a) (fun b => rbind (rmap f l') (fun bs => Ok (b :: bs)))
  end.

(** ** Python built-ins used by the module *)

Module Py.

Definition newline : ascii := "010"%char.
Definition carriage_return : ascii := "013"%char.

(** [len(l)] *)
Definition len {A} (l : list A) : Z := Z.of_nat (length l).

(** A slice bound [i] of a sequence of length [n], as [PySlice_AdjustIndices]
    clamps it: a negative bound counts from the end. *)
Definition clamp (n i : Z) : Z :=
  if i <? 0 then Z.max 0 (n + i) else Z.min i n.

(** [l[lo:hi]]; [None] is an omitted bound. *)
Definition slice {A} (l : list A) (lo hi : option Z) : list A :=
  let n := len l in
  let a := match lo with None => 0 | Some i => clamp n i end in
  let b := match hi with None => n | Some j => clamp n j end in
  take (Z.to_nat (b - a)) (drop (Z.to_nat a) l).

(** [list(range(start, stop, step))] *)
Definition range (start stop step : Z) : result (list Z) :=
  if step =? 0 then Err (ValueError "range() arg 3 must not be zero")
  else
    let n :=
      if 0 <? step
      then (if start <? stop then (stop - start - 1) / step + 1 else 0)
      else (if stop <? start then (start - stop - 1) / (- step) + 1 else 0) in
    Ok (map (fun i => start + Z.of_nat i * step) (seq 0 (Z.to_nat n))).

(** [s.lstrip(c)], [s.rstrip(c)] and [s.strip(c)] for a one-character [c]. *)
Fixpoint lstrip (c : ascii) (s : string) : string :=
  match s with
  | EmptyString => EmptyString
  | String a s' => if Ascii.eqb a c then lstrip c s' else s
  end.

Fixpoint rstrip (c : ascii) (s : string) : string :=
  match s with
  | EmptyString => EmptyString
  | String a s' =>
      match rstrip c s' with
      | EmptyString => if Ascii.eqb a c then EmptyString else String a EmptyString
      | r => String a r
      end
  end.

Definition strip (c : ascii) (s : string) : string := lstrip c (rstrip c s).

(** [s.replace(c, new)] for a one-character pattern [c]. *)
Fixpoint replace (c : ascii) (new : string) (s : string) : string :=
  match s with
  | EmptyString => EmptyString
  | String a s' =>
      if Ascii.eqb a c then String.append new (replace c new s') else String a (replace c new s')
  end.

(** Text mode with the default [newline=None]: a CR LF pair and a lone CR are
    both read as LF. *)
Fixpoint universal_newlines (s : string) : string :=
  match s with
  | EmptyString => EmptyString
  | String a s' =>
      if Ascii.eqb a carriage_return then
        match s' with
        | String b s'' =>
            if Ascii.eqb b newline
            then String newline (universal_newlines s'')
            else String newline (universal_newlines s')
        | EmptyString => String newline EmptyString
        end
      else String a (universal_newlines s')
  end.

(** The lines a text file yields when iterated: each keeps its terminator,
    the last one may have none. *)
Fixpoint lines (s : string) : list string :=
  match s with
  | EmptyString => []
  | String a s' =>
      if Ascii.eqb a newline then String a EmptyString :: lines s'
      else match lines s' with
           | [] => [String a EmptyString]
           | l :: ls => String a l :: ls
           end
  end.

(** The value of a hexadecimal digit ([_PyLong_DigitValue] below 16). *)
Definition hex_digit (c : ascii) : option N :=
  let n := N_of_ascii c in
  if ((48 <=? n) && (n <=? 57))%N then Some (n - 48)%N
  else if ((65 <=? n) && (n <=? 70))%N then Some (n - 55)%N
  else if ((97 <=? n) && (n <=? 102))%N then Some (n - 87)%N
  else None.

(** [Py_ISSPACE]: space, TAB, LF, VT, FF, CR. *)
Definition is_space (c : ascii) : bool :=
  let n := N_of_ascii c in
  ((n =? 32) || ((9 <=? n) && (n <=? 13)))%N.

Definition byte_of_nibbles (top bot : N) : byte :=
  byte_of_ascii (ascii_of_N (16 * top + bot)).

(** [bytes.fromhex(s)]: white space is skipped between bytes only; every
    byte is two hexadecimal digits. *)
Fixpoint fromhex (s : string) : result (list byte) :=
  match s with
  | EmptyString => Ok []
  | String c s1 =>
      if is_space c then fromhex s1
      else
        match hex_digit c with
        | None => Err (ValueError "non-hexadecimal number found in fromhex() arg")
        | Some top =>
            match s1 with
            | EmptyString => Err (ValueError "non-hexadecimal number found in fromhex() arg")
            | String d s2 =>
                match hex_digit d with
                | None => Err (ValueError "non-hexadecimal number found in fromhex() arg")
                | Some bot => rbind (fromhex s2) (fun bs => Ok (byte_of_nibbles top bot :: bs))
                end
            end
        end
  end.

(** [math.floor(x)] of a float: the integer part towards minus infinity. *)
Definition floor (x : float) : result Z :=
  match Prim2SF x with
  | S754_zero _ => Ok 0
  | S754_finite s m e =>
      let q := if 0 <=? e then Z.pos m * 2 ^ e
               else (if s then - Z.pos m else Z.pos m) / 2 ^ (- e) in
      Ok (if 0 <=? e then (if s then - q else q) else q)
  | S754_infinity _ => Err (OverflowError "cannot convert float infinity to integer")
  | S754_nan => Err (ValueError "cannot convert float NaN to integer")
  end.

(** [n * x] for an [int] [n] and a [float] [x]: [n] is converted, then the
    product is the rounded binary64 one.  [n] is a length here, which
    CPython keeps below [2^63]. *)
Definition int_mul_float (n : Z) (x : float) : float :=
  PrimFloat.mul (PrimFloat.of_uint63 (Uint63.of_Z n)) x.

(** [x[i], x[j] = x[j], x[i]].  [shuffle] only uses indices inside the list;
    outside, where Python raises [IndexError], the list is left as it is. *)
Definition swap {A} (x : list A) (i j : nat) : list A :=
  match x !! i, x !! j with
  | Some xi, Some xj => <[j := xi]> (<[i := xj]> x)
  | _, _ => x
  end.

(** [random.shuffle(x)]:
    [for i in reversed(range(1, len(x))): j = randbelow(i + 1); swap],
    with [randbelow] drawing from the stream [rand] at position [pos]. *)
Fixpoint shuffle_from {A} (i : nat) (x : list A) (rand : nat -> nat) (pos : nat)
  : list A * nat :=
  match i with
  | O => (x, pos)
  | S i' => shuffle_from i' (swap x i (rand pos mod (S i))%nat) rand (S pos)
  end.

Definition shuffle {A} (x : list A) (rand : nat -> nat) (pos : nat) : list A * nat :=
  shuffle_from (length x - 1)%nat x rand pos.

End Py.

(** ** [os.path] and [os.walk] on a POSIX file system *)

Module Os.

Definition sep : ascii := "/"%char.
Definition extsep : ascii := "."%char.

Fixpoint ends_with (c : ascii) (s : string) : bool :=
  match s with
  | EmptyString => false
  | String a EmptyString => Ascii.eqb a c
  | String _ s' => ends_with c s'
  end.

Definition starts_with (c : ascii) (s : string) : bool :=
  match s with
  | String a _ => Ascii.eqb a c
  | EmptyString => false
  end.

(** [os.path.join(a, b)] *)
Definition path_join (a b : string) : string :=
  if starts_with sep b then b
  else if (String.length a =? 0)%nat || ends_with sep a then String.append a b
  else String.append a (String sep b).

(** [s.rfind(c)] counted from position [i]: the index of the last [c], or
    [-1]. *)
Fixpoint rfind_from (c : ascii) (s : string) (i : Z) : Z :=
  match s with
  | EmptyString => -1
  | String a s' =>
      let r := rfind_from c s' (i + 1) in
      if 0 <=? r then r else if Ascii.eqb a c then i else -1
  end.

Definition rfind (c : ascii) (s : string) : Z := rfind_from c s 0.

Fixpoint all_eqb (c : ascii) (s : string) : bool :=
  match s with
  | EmptyString => true
  | String a s' => Ascii.eqb a c && all_eqb c s'
  end.

(** [os.path.splitext(p)[1]] ([genericpath._splitext]): the extension
    starts at the last dot, when that dot comes after the last separator
    and some character other than a dot stands between the two. *)
Definition splitext_ext (p : string) : string :=
  let sepIndex := rfind sep p in
  let dotIndex := rfind extsep p in
  if sepIndex <? dotIndex then
    let filenameIndex := Z.to_nat (sepIndex + 1) in
    let dots := String.substring filenameIndex (Z.to_nat dotIndex - filenameIndex) p in
    if all_eqb extsep dots then EmptyString
    else String.substring (Z.to_nat dotIndex) (String.length p - Z.to_nat dotIndex) p
  else EmptyString.

(** A directory: the names of its files and its named sub-directories. *)
Unset Elimination Schemes.
Inductive dir : Type :=
  | Dir (filenames : list string) (subdirs : list (string * dir)).
Set Elimination Schemes.

(** What [os.walk] yields for one directory: [(dirpath, dirnames, filenames)]. *)
Definition walk_entry : Type := string * list string * list string.

(** [os.walk(top)], top-down. *)
Fixpoint walk_dir (top : string) (d : dir) : list walk_entry :=
  match d with
  | Dir filenames subdirs =>
      (top, map fst subdirs, filenames)
        :: flat_map (fun p => match p with (name, sub) => walk_dir (path_join top name) sub end)
                    subdirs
  end.

End Os.

(** ** The dataset store, [binaryds.BinaryDs]

    [preprocess.py] imports the class from [binaryds.py] and uses its
    constructor and the methods [read], [get_features], [set_features],
    [get_function_granularity], [set_function_granularity], [get], [set] and
    [rebalance]. *)

Module BinaryDs.

(** An example is a byte string. *)
Definition example : Type := list byte.

(** Modelled from the spec: the class [BinaryDs] of [binaryds.py].  A store
    stands for one file and holds a header ([features],
    [function_granularity], unset until the first [set_*] call or a
    successful [read]) and a map from category to an ordered sequence of
    examples. *)
Record t : Type := Build {
  path : string;
  features : option Z;
  function_granularity : option bool;
  categories : gmap Z (list example)
}.

(** Modelled from the spec: the persisted form of a store, header then
    categorised examples, as [write] leaves it and [read] finds it. *)
Record file : Type := File {
  file_features : option Z;
  file_function_granularity : option bool;
  file_categories : gmap Z (list example)
}.

(** Modelled from the spec: the constructor [BinaryDs(path)]; a store is
    created empty, its schema unset. *)
Definition init (p : string) : t :=
  {| path := p; features := None; function_granularity := None; categories := ∅ |}.

(** Modelled from the spec: [read()] loads header and category map from
    disk and fails with Not-Found if the file does not exist. *)
Definition load (f : file) (ds : t) : t :=
  {| path := path ds;
     features := file_features f;
     function_granularity := file_function_granularity f;
     categories := file_categories f |}.

Definition read (disk : gmap string file) (ds : t) : result t :=
  match disk !! path ds with
  | None => Err (FileNotFoundError (path ds))
  | Some f => Ok (load f ds)
  end.

(** Modelled from the spec: [write()] persists header and category map. *)
Definition write (disk : gmap string file) (ds : t) : gmap string file :=
  <[path ds := {| file_features := features ds;
                  file_function_granularity := function_granularity ds;
                  file_categories := categories ds |}]> disk.

(** Modelled from the spec: the schema accessors. *)
Definition get_features (ds : t) : option Z := features ds.
Definition get_function_granularity (ds : t) : option bool := function_granularity ds.

Definition set_features (n : Z) (ds : t) : t :=
  {| path := path ds; features := Some n;
     function_granularity := function_granularity ds; categories := categories ds |}.

Definition set_function_granularity (b : bool) (ds : t) : t :=
  {| path := path ds; features := features ds;
     function_granularity := Some b; categories := categories ds |}.

(** Modelled from the spec: [get(category)] returns the ordered sequence of
    the category, or an empty sequence if the category is unknown. *)
Definition get (category : Z) (ds : t) : list example :=
  default [] (categories ds !! category).

(** Modelled from the spec: [set(category, examples)] replaces the stored
    sequence of the category. *)
Definition set (category : Z) (examples : list example) (ds : t) : t :=
  {| path := path ds; features := features ds;
     function_granularity := function_granularity ds;
     categories := <[category := examples]> (categories ds) |}.

Section Rebalance.

(** The target ratio of the run: the share of a category's examples that
    belongs in the store [rebalance] is called on.  The call
    [train.rebalance(test)] does not pass it; the store is taken to know
    it. *)
Variable ratio : Q.

(** Modelled from the spec: the number of examples, out of [total], that
    brings [count_in_this / total] as close as achievable to the target
    ratio: the integer nearest to [total * ratio], kept within
    [0 .. total]. *)
Definition target_count (total : nat) : nat :=
  Z.to_nat (Z.max 0 (Z.min (Z.of_nat total)
                           (Qfloor (inject_Z (Z.of_nat total) * ratio + (1 # 2))%Q))).

(** Modelled from the spec: one category is rebalanced by moving whole
    examples from the tail of the over-represented side to the other
    side. *)
Definition rebalance_lists (this other : list example) : list example * list example :=
  let k := target_count (length this + length other) in
  if (k <=? length this)%nat
  then (take k this, other ++ drop k this)
  else
    let keep := (length other - (k - length this))%nat in
    (this ++ drop keep other, take keep other).

Definition rebalance_this (oa ob : option (list example)) : option (list example) :=
  Some (rebalance_lists (default [] oa) (default [] ob)).1.

Definition rebalance_other (oa ob : option (list example)) : option (list example) :=
  Some (rebalance_lists (default [] oa) (default [] ob)).2.

(** Modelled from the spec: [this.rebalance(other)] rebalances every
    category present in either store. *)
Definition rebalance (this other : t) : t * t :=
  ({| path := path this; features := features this;
      function_granularity := function_granularity this;
      categories := merge rebalance_this (categories this) (categories other) |},
   {| path := path other; features := features other;
      function_granularity := function_granularity other;
      categories := merge rebalance_other (categories this) (categories other) |}).

End Rebalance.

End BinaryDs.

(** ** The world of a run *)

Inductive store_ref : Type := Train | Test.

(** The calls a run makes on its collaborators, in order. *)
Inductive event : Type :=
  | EvRead (r : store_ref)
  | EvSetFeatures (r : store_ref) (n : Z)
  | EvSetFunctionGranularity (r : store_ref) (b : bool)
  | EvShuffle
  | EvGet (r : store_ref) (category : Z)
  | EvSet (r : store_ref) (category : Z)
  | EvRebalance
  | EvWrite (r : store_ref).

Record World : Type := MkWorld {
  fs_dirs : gmap string Os.dir;           (* the directories [os.walk] sees, by path *)
  fs_files : gmap string (list byte);     (* the content of the sample files, by path *)
  disk : gmap string BinaryDs.file;       (* the persisted stores, by path *)
  train : BinaryDs.t;                     (* the object bound to [train] *)
  test : BinaryDs.t;                      (* the object bound to [test] *)
  rand : nat -> nat;                      (* the random source *)
  rand_pos : nat;                         (* how much of it has been drawn *)
  trace : list event                      (* the calls made so far *)
}.

Definition store (r : store_ref) (w : World) : BinaryDs.t :=
  match r with Train => train w | Test => test w end.

Definition with_store (r : store_ref) (ds : BinaryDs.t) (w : World) : World :=
  match r with
  | Train => MkWorld (fs_dirs w) (fs_files w) (disk w) ds (test w) (rand w) (rand_pos w) (trace w)
  | Test => MkWorld (fs_dirs w) (fs_files w) (disk w) (train w) ds (rand w) (rand_pos w) (trace w)
  end.

Definition with_rand_pos (p : nat) (w : World) : World :=
  MkWorld (fs_dirs w) (fs_files w) (disk w) (train w) (test w) (rand w) p (trace w).

Definition log (ev : event) (w : World) : World :=
  MkWorld (fs_dirs w) (fs_files w) (disk w) (train w) (test w) (rand w) (rand_pos w)
          (trace w ++ [ev]).

(** A computation that reads and updates the world and may raise. *)
Definition M (A : Type) : Type := World -> result A * World.

Definition ret {A} (a : A) : M A := fun w => (Ok a, w).
Definition raise {A} (e : exn) : M A := fun w => (Err e, w).
Definition bind {A B} (m : M A) (k : A -> M B) : M B :=
  fun w => match m w with
           | (Ok a, w') => k a w'
           | (Err e, w') => (Err e, w')
           end.
Definition lift {A} (r : result A) : M A := fun w => (r, w).

(** [try: body except <handles>: handler] *)
Definition try_except {A} (body : M A) (handles : exn -> bool) (handler : M A) : M A :=
  fun w => match body w with
           | (Err e, w') => if handles e then handler w' else (Err e, w')
           | ok => ok
           end.

Notation "'do' x <- m ; k" := (bind m (fun x => k))
  (at level 10, x name, m at level 100, k at level 200).

(** The methods of a store, as calls on the object [r] of the world. *)
Module Ds.

Definition read (r : store_ref) : M unit := fun w =>
  let w := log (EvRead r) w in
  match BinaryDs.read (disk w) (store r w) with
  | Ok ds => (Ok tt, with_store r ds w)
  | Err e => (Err e, w)
  end.

Definition get_features (r : store_ref) : M (option Z) := fun w =>
  (Ok (BinaryDs.get_features (store r w)), w).

Definition get_function_granularity (r : store_ref) : M (option bool) := fun w =>
  (Ok (BinaryDs.get_function_granularity (store r w)), w).

Definition set_features (r : store_ref) (n : Z) : M unit := fun w =>
  let w := log (EvSetFeatures r n) w in
  (Ok tt, with_store r (BinaryDs.set_features n (store r w)) w).

Definition set_function_granularity (r : store_ref) (b : bool) : M unit := fun w =>
  let w := log (EvSetFunctionGranularity r b) w in
  (Ok tt, with_store r (BinaryDs.set_function_granularity b (store r w)) w).

Definition get (r : store_ref) (category : Z) : M (list BinaryDs.example) := fun w =>
  let w := log (EvGet r category) w in
  (Ok (BinaryDs.get category (store r w)), w).

Definition set (r : store_ref) (category : Z) (examples : list BinaryDs.example) : M unit :=
  fun w =>
    let w := log (EvSet r category) w in
    (Ok tt, with_store r (BinaryDs.set category examples (store r w)) w).

Definition rebalance (ratio : Q) (this other : store_ref) : M unit := fun w =>
  let w := log EvRebalance w in
  let '(a, b) := BinaryDs.rebalance ratio (store this w) (store other w) in
  (Ok tt, with_store other b (with_store this a w)).

End Ds.

(** [random.shuffle(data)], drawing from the world's random source. *)
Definition random_shuffle {A} (data : list A) : M (list A) := fun w =>
  let w := log EvShuffle w in
  let '(data', pos) := Py.shuffle data (rand w) (rand_pos w) in
  (Ok data', with_rand_pos pos w).

(** ** Calling a Python function *)

(** The values that are passed between the functions of the module. *)
Inductive pyval : Type :=
  | VBool (b : bool)
  | VInt (n : Z)
  | VStrList (l : list string).

(** Binding the positional arguments of a call to the parameters of a [def]
    that has neither defaults nor [*args]: the numbers must agree. *)
Definition bind_positional (fname : string) (params : list string) (args : list pyval)
  : result (list (string * pyval)) :=
  if (length args <? length params)%nat
  then Err (TypeError (String.append fname "() missing required positional argument"))
  else if (length params <? length args)%nat
  then Err (TypeError (String.append fname "() takes fewer positional arguments than were given"))
  else Ok (zip params args).

(** ** [preprocess.py] *)

(** *** [gather_files] *)

(** The loop [for cur_file in files: files.append(os.path.join(path, cur_file))].
    The list iterator keeps the list and an index [idx]; it stops when the
    index reaches the current length of that very list.  Lists have no
    bound on their length: running out of memory is not modelled. *)
Fixpoint gather_files_inner (fuel : nat) (path : string) (files : list string) (idx : nat)
  : option (list string) :=
  match fuel with
  | O => None
  | S fuel' =>
      match files !! idx with
      | None => Some files
      | Some cur_file =>
          let cur_abs := Os.path_join path cur_file in
          gather_files_inner fuel' path (files ++ [cur_abs]) (S idx)
      end
  end.

(** The loop [for _, _, files in os.walk(path)]: every entry rebinds [files]
    to its list of file names, and the inner loop runs on that list. *)
Fixpoint gather_files_outer (fuel : nat) (path : string) (walk : list Os.walk_entry)
  (files : list string) : option (list string) :=
  match walk with
  | [] => Some files
  | (_, _, files) :: walk' =>
      match gather_files_inner fuel path files 0 with
      | None => None
      | Some files => gather_files_outer fuel path walk' files
      end
  end.

(** [os.walk(path)] in a world: nothing is yielded for a path that is not a
    directory. *)
Definition os_walk (ds : gmap string Os.dir) (path : string) : list Os.walk_entry :=
  match ds !! path with
  | None => []
  | Some d => Os.walk_dir path d
  end.

(** The message of the error [gather_files] raises.  Only the first of the
    two adjacent literals is an f-string, so [{ext}] stays as it is. *)
Definition no_files_message : string :=
  "No files with the correct extension, {ext} were found in the given folder".

Definition gather_files (fuel : nat) (ds : gmap string Os.dir) (path : string)
  (function : bool) : option (result (list string)) :=
  let files := [] in
  match gather_files_outer fuel path (os_walk ds path) files with
  | None => None
  | Some files =>
      let ext := if function then ".txt" else ".bin" in
      let files := List.filter (fun x => String.eqb (Os.splitext_ext x) ext) files in
      if (length files =? 0)%nat
      then Some (Err (FileNotFoundError no_files_message))
      else Some (Ok files)
  end.

(** *** [read_files_function] and [read_files_raw] *)

(** [open(cur_file, mode)] on a file system of regular, readable files: a
    path that names no file raises [FileNotFoundError].  Directories among
    the paths, permissions and the other errors of the operating system are
    not represented. *)
Definition open (fs : gmap string (list byte)) (cur_file : string) : result (list byte) :=
  match fs !! cur_file with
  | None => Err (FileNotFoundError cur_file)
  | Some content => Ok content
  end.

(** The lines of a file opened in text mode; the content is decoded byte for
    byte, the samples being ASCII text: a decoding error on other bytes is
    not represented. *)
Definition text_lines (content : list byte) : list string :=
  Py.lines (Py.universal_newlines (string_of_list_byte content)).

(** The body of [for cnt, line in enumerate(f)]. *)
Definition read_line (functions : list string) (line : string) : list string :=
  let line := Py.strip Py.newline line in
  if String.eqb line "FF," || String.eqb line EmptyString || String.eqb line "[]"
  then functions
  else functions ++ [line].

Fixpoint read_files_function_loop (fs : gmap string (list byte)) (files_list : list string)
  (functions : list string) : result (list string) :=
  match files_list with
  | [] => Ok functions
  | cur_file :: files_list' =>
      rbind (open fs cur_file) (fun f =>
        read_files_function_loop fs files_list' (fold_left read_line (text_lines f) functions))
  end.

Definition read_files_function (fs : gmap string (list byte)) (files_list : list string)
  : result (list string) :=
  read_files_function_loop fs files_list [].

Fixpoint read_files_raw_loop (fs : gmap string (list byte)) (files_list : list string)
  (functions : list (list byte)) : result (list (list byte)) :=
  match files_list with
  | [] => Ok functions
  | cur_file :: files_list' =>
      rbind (open fs cur_file) (fun f =>
        read_files_raw_loop fs files_list' (functions ++ [f]))
  end.

Definition read_files_raw (fs : gmap string (list byte)) (files_list : list string)
  : result (list (list byte)) :=
  read_files_raw_loop fs files_list [].

(** *** [encode_opcodes] *)

Definition encode_opcodes (func_list : list string) : result (list (list byte)) :=
  let func_list := map (fun x => Py.replace ","%char EmptyString x) func_list in
  rmap Py.fromhex func_list.

(** *** [read_and_clean_content] *)

Definition read_and_clean_content (fs : gmap string (list byte)) (files : list string)
  (function : bool) (features : Z) : result (list (list byte)) :=
  if function then
    rbind (read_files_function fs files) (fun x => encode_opcodes x)
  else
    rbind (read_files_raw fs files) (fun x =>
    rbind (Py.range 0 (Py.len x) features) (fun starts =>
    let x := map (fun i => Py.slice x (Some i) (Some (i + features))) starts in
    Ok (concat x))).

(** The parameters of [def read_and_clean_content(files, function, features)]. *)
Definition read_and_clean_content_params : list string :=
  ["files"; "function"; "features"].

(** A call [read_and_clean_content(args)]: the arguments are bound to the
    parameters, then the body runs on them.  The body is typed as the
    annotations of the [def] say, [List[str]], [bool] and [int]. *)
Definition call_read_and_clean_content (args : list pyval) : M (list (list byte)) := fun w =>
  (rbind (bind_positional "read_and_clean_content" read_and_clean_content_params args)
     (fun env =>
        match map snd env with
        | [VStrList files; VBool function; VInt features] =>
            read_and_clean_content (fs_files w) files function features
        | _ => Err (TypeError "read_and_clean_content: argument of another type")
        end),
   w).

(** *** [read_dataset] *)

Definition granularity_message : string :=
  "Incompatible granularity between existing dataset and requested changes".
Definition features_message : string :=
  "Incompatible number of features between existing dataset and requested changes".

Definition read_dataset (dataset : store_ref) (function : bool) (features : Z) : M unit :=
  try_except
    (do _ <- Ds.read dataset;
     do g <- Ds.get_function_granularity dataset;
     if bool_decide (g ≠ Some function)
     then raise (ValueError granularity_message)
     else
       do f <- Ds.get_features dataset;
       if bool_decide (f ≠ Some features)
       then raise (ValueError features_message)
       else ret tt)
    is_FileNotFoundError
    (do _ <- Ds.set_features dataset features;
     Ds.set_function_granularity dataset function).

(** *** [run_preprocess] *)

Section RunPreprocess.

(** The ratio the stores rebalance towards (see [BinaryDs.rebalance]). *)
Variable target_ratio : Q.

(** Line 39: [math.floor(len(data) * split)] for a batch of [n] examples. *)
Definition split_index (n : Z) (split : float) : result Z :=
  Py.floor (Py.int_mul_float n split).

(** Lines 38 to 41: shuffle the batch and cut it at the split index. *)
Definition shuffle_and_split (data : list BinaryDs.example) (split : float)
  : M (list BinaryDs.example * list BinaryDs.example) :=
  do data <- random_shuffle data;
  do split_index <- lift (split_index (Py.len data) split);
  let new_train_data := Py.slice data None (Some split_index) in
  let new_test_data := Py.slice data (Some split_index) None in
  ret (new_train_data, new_test_data).

(** Lines 43 to 48: extend what each store holds for the category. *)
Definition append_new_data (category : Z)
  (new_train_data new_test_data : list BinaryDs.example) : M unit :=
  do current_train_data <- Ds.get Train category;
  do current_test_data <- Ds.get Test category;
  let current_train_data := current_train_data ++ new_train_data in
  let current_test_data := current_test_data ++ new_test_data in
  do _ <- Ds.set Train category current_train_data;
  Ds.set Test category current_test_data.

(** Lines 38 to 49: what [run_preprocess] does with the encoded batch. *)
Definition store_new_data (data : list BinaryDs.example) (category : Z) (split : float)
  : M unit :=
  do parts <- shuffle_and_split data split;
  do _ <- append_new_data category parts.1 parts.2;
  Ds.rebalance target_ratio Train Test.

(** Lines 35 to 49: what [run_preprocess] does once [files] is bound. *)
Definition run_preprocess_with_files (files : list string) (category : Z)
  (function : bool) (features : Z) (split : float) : M unit :=
  do _ <- read_dataset Train function features;
  do _ <- read_dataset Test function features;
  do data <- call_read_and_clean_content [VStrList files; VBool function];
  store_new_data data category split.

Definition run_preprocess (fuel : nat) (input_dir : string) (category : Z)
  (model_dir : string) (function : bool) (features : Z) (split : float) (w : World)
  : option (result unit * World) :=
  let w := with_store Train (BinaryDs.init (Os.path_join model_dir "train.bin")) w in
  let w := with_store Test (BinaryDs.init (Os.path_join model_dir "test.bin")) w in
  match gather_files fuel (fs_dirs w) input_dir function with
  | None => None
  | Some (Err e) => Some (Err e, w)
  | Some (Ok files) =>
      Some (run_preprocess_with_files files category function features split w)
  end.

End RunPreprocess.

(** * The vocabulary of the statements, and sample inputs *)

(** A directory [in] with the single file [a.txt]. *)
Definition one_txt_dir : gmap string Os.dir := {[ "in" := Os.Dir ["a.txt"] [] ]}.

(** A directory [in] with the single file [a.bin]. *)
Definition one_bin_dir : gmap string Os.dir := {[ "in" := Os.Dir ["a.bin"] [] ]}.

(** A directory [in] without files. *)
Definition empty_dir : gmap string Os.dir := {[ "in" := Os.Dir [] [] ]}.

(** A file system with the single raw file [a.bin] of five bytes. *)
Definition five_bytes : list byte := [x01; x02; x03; x04; x05].
Definition one_raw_file : gmap string (list byte) := {[ "in/a.bin" := five_bytes ]}.

(** The lines that [read_files_function] keeps. *)
Definition retained (line : string) : bool :=
  negb (String.eqb line "FF," || String.eqb line EmptyString || String.eqb line "[]").

(** The samples of one file: its lines without their terminators, the
    skipped ones left out. *)
Definition samples_of (content : list byte) : list string :=
  List.filter retained (map (Py.strip Py.newline) (text_lines content)).

(** Hex-decoding of one sample: the commas go, the digits are decoded. *)
Definition decode_sample (line : string) : result (list byte) :=
  Py.fromhex (Py.replace ","%char EmptyString line).

(** One text file with a sample and the three kinds of skipped line. *)
Definition nl : string := String Py.newline EmptyString.
Definition sample_text : string :=
  String.append "DE,AD,C0,DE" (String.append nl (String.append nl
    (String.append "[]" (String.append nl (String.append "FF," nl))))).
Definition one_text_file : gmap string (list byte) :=
  {[ "in/a.txt" := list_byte_of_string sample_text ]}.

(** The calls that open a store: reading it and fixing its schema. *)
Definition opens_store (ev : event) : bool :=
  match ev with
  | EvRead _ | EvSetFeatures _ _ | EvSetFunctionGranularity _ _ => true
  | _ => false
  end.

(** The calls that change what a store holds or what the disk holds. *)
Definition mutates (ev : event) : bool :=
  match ev with
  | EvSet _ _ | EvRebalance | EvWrite _ => true
  | _ => false
  end.

(** The calls of the stages that follow the encoding of the batch: shuffle,
    append, rebalance, write. *)
Definition after_encoding (ev : event) : bool :=
  match ev with
  | EvShuffle | EvGet _ _ | EvSet _ _ | EvRebalance | EvWrite _ => true
  | _ => false
  end.


(** [w'] comes from [w] by calls that all satisfy [ok], the disk untouched. *)
Definition extends_by (ok : event -> bool) (w w' : World) : Prop :=
  disk w' = disk w
  /\ fs_files w' = fs_files w
  /\ exists evs, trace w' = trace w ++ evs /\ Forall (fun ev => ok ev = true) evs.

(** The world after [read_dataset] found the file [f] of the store. *)
Definition world_loaded (r : store_ref) (f : BinaryDs.file) (w : World) : World :=
  with_store r (BinaryDs.load f (store r w)) (log (EvRead r) w).

(** The world after [read_dataset] found no file and set the schema. *)
Definition world_fresh (r : store_ref) (function : bool) (features : Z) (w : World) : World :=
  let w1 := log (EvRead r) w in
  let w2 := with_store r (BinaryDs.set_features features (store r w1))
                       (log (EvSetFeatures r features) w1) in
  with_store r (BinaryDs.set_function_granularity function (store r w2))
             (log (EvSetFunctionGranularity r function) w2).

(** A persisted schema that differs from the requested one. *)
Definition schema_differs (f : BinaryDs.file) (function : bool) (features : Z) : Prop :=
  BinaryDs.file_function_granularity f ≠ Some function
  \/ BinaryDs.file_features f ≠ Some features.


(** A world with nothing on disk, and two stores that were just created. *)
Definition fresh_world : World :=
  {| fs_dirs := ∅; fs_files := ∅; disk := ∅;
     train := BinaryDs.init "model/train.bin";
     test := BinaryDs.init "model/test.bin";
     rand := fun n => n; rand_pos := 0; trace := [] |}.

Definition one_half : float := 0x1p-1%float.

(** A world whose training store was persisted at function granularity with
    four features. *)
Definition persisted_world : World :=
  {| fs_dirs := ∅; fs_files := ∅;
     disk := {[ "model/train.bin" :=
                  BinaryDs.File (Some 4) (Some true) {[ 0 := [[xde; xad; xc0; xde]] ]} ]};
     train := BinaryDs.init "model/train.bin";
     test := BinaryDs.init "model/test.bin";
     rand := fun n => n; rand_pos := 0; trace := [] |}.

(** The world after lines 43 to 48. *)
Definition world_appended (category : Z) (new_train_data new_test_data : list BinaryDs.example)
  (w : World) : World :=
  let current_train_data := BinaryDs.get category (train w) in
  let current_test_data := BinaryDs.get category (test w) in
  {| fs_dirs := fs_dirs w; fs_files := fs_files w; disk := disk w;
     train := BinaryDs.set category (current_train_data ++ new_train_data) (train w);
     test := BinaryDs.set category (current_test_data ++ new_test_data) (test w);
     rand := rand w; rand_pos := rand_pos w;
     trace := trace w ++ [EvGet Train category; EvGet Test category;
                          EvSet Train category; EvSet Test category] |}.

(** Two stores that hold four and no examples of category 0. *)
Definition four_examples : BinaryDs.t :=
  BinaryDs.set 0 [[x01]; [x02]; [x03]; [x04]] (BinaryDs.init "model/train.bin").
Definition no_example : BinaryDs.t := BinaryDs.init "model/test.bin".

(** The value [m * 2^e] of a float with [e <= 0] is at most [n]. *)
Definition value_le (m e n : Z) : Prop := e <= 0 /\ m <= n * 2 ^ (- e).

(** The value [m * 2^e] of a float with [e <= 0] is at least [lo]. *)
Definition value_ge (m e lo : Z) : Prop := lo * 2 ^ (- e) <= m.

(** A batch of four examples of one byte. *)
Definition four_blobs : list BinaryDs.example := [[x01]; [x02]; [x03]; [x04]].

(** The world after lines 32 and 33: the two stores were just created. *)
Definition world_init (model_dir : string) (w : World) : World :=
  with_store Test (BinaryDs.init (Os.path_join model_dir "test.bin"))
    (with_store Train (BinaryDs.init (Os.path_join model_dir "train.bin")) w).

(** Every path of [files_list] names a file, and [contents] are their
    contents, in order. *)
Definition holds (fs : gmap string (list byte)) (files_list : list string)
  (contents : list (list byte)) : Prop :=
  Forall2 (fun path content => fs !! path = Some content) files_list contents.

(** The upper-case hexadecimal digit of a value below 16. *)
Definition hex_char (n : N) : ascii :=
  ascii_of_N (if (n <? 10)%N then 48 + n else 55 + n).

(** A byte as two hexadecimal digits, as in [DE]. *)
Definition hex_of_byte (b : byte) : string :=
  let n := Byte.to_N b in
  String (hex_char (n / 16)) (String (hex_char (n mod 16)) EmptyString).

(** A byte string in the form the samples have, [DE,AD,C0,DE]: two digits
    per byte, a comma between bytes. *)
Fixpoint to_opcodes (bs : list byte) : string :=
  match bs with
  | [] => EmptyString
  | [b] => hex_of_byte b
  | b :: bs' => String.append (hex_of_byte b) (String ","%char (to_opcodes bs'))
  end.

(** A string of hexadecimal digits and commas only. *)
Fixpoint digits_and_commas (s : string) : bool :=
  match s with
  | EmptyString => true
  | String c s' =>
      (Ascii.eqb c ","%char || bool_decide (is_Some (Py.hex_digit c)))
      && digits_and_commas s'
  end.

(** The number of characters of a string other than commas. *)
Fixpoint count_digits (s : string) : nat :=
  match s with
  | EmptyString => O
  | String c s' => if Ascii.eqb c ","%char then count_digits s' else S (count_digits s')
  end.

(** The character [c] does not occur in the string. *)
Fixpoint lacks (c : ascii) (s : string) : bool :=
  match s with
  | EmptyString => true
  | String a s' => negb (Ascii.eqb a c) && lacks c s'
  end.

(** A file system with two raw files. *)
Definition two_raw_files : gmap string (list byte) :=
  {[ "in/a.bin" := five_bytes; "in/b.bin" := [x0a; x0b] ]}.

(** A string of hexadecimal digits only. *)
Fixpoint hex_digits_only (s : string) : bool :=
  match s with
  | EmptyString => true
  | String c s' => bool_decide (is_Some (Py.hex_digit c)) && hex_digits_only s'
  end.

(** One text file with a good sample, a malformed one and another good one. *)
Definition malformed_text : string :=
  String.append "DE,AD" (String.append nl (String.append "ZZ" (String.append nl "01"))).
Definition malformed_text_file : gmap string (list byte) :=
  {[ "in/a.txt" := list_byte_of_string malformed_text ]}.

(** A world whose training store was persisted with four features and whose
    directory [in] holds no file. *)
Definition persisted_world_empty_dir : World :=
  {| fs_dirs := empty_dir; fs_files := ∅; disk := disk persisted_world;
     train := BinaryDs.init "elsewhere/train.bin";
     test := BinaryDs.init "elsewhere/test.bin";
     rand := fun n => n; rand_pos := 0; trace := [] |}.

Definition minus_one_half : float := (-0x1p-1)%float.

(** The rational number that a float stands for, [+-m * 2^e]; [None] for an
    infinity and for a NaN. *)
Definition float_value (x : float) : option Q :=
  match Prim2SF x with
  | S754_zero _ => Some 0%Q
  | S754_finite s m e =>
      Some (inject_Z (if s then - Z.pos m else Z.pos m) * Qpower 2 e)%Q
  | _ => None
  end.

(** [floor(N * r)] in exact arithmetic, [r] being the number that the float
    [split] stands for: the product is not rounded before the floor is
    taken. *)
Definition exact_floor_product (n : Z) (split : float) : option Z :=
  match float_value split with
  | Some r => Some (Qfloor (inject_Z n * r))
  | None => None
  end.

(** The split sizes with the floor of the exact product: [floor(N * r)]
    examples for the training store and the other [N - floor(N * r)] for the
    test store. *)
Definition splits_at_exact_floor (data : list BinaryDs.example) (split : float)
  (w : World) : Prop :=
  exists f new_train_data new_test_data w',
    exact_floor_product (Py.len data) split = Some f
    /\ shuffle_and_split data split w = (Ok (new_train_data, new_test_data), w')
    /\ Py.len new_train_data = f
    /\ Py.len new_test_data = Py.len data - f.

(** The float nearest to one third, [1/3 - 2^-54 / 3]: what [1 / 3] is in
    Python. *)
Definition one_third : float := 0x1.5555555555555p-2%float.

(** A batch of three examples of one byte. *)
Definition three_blobs : list BinaryDs.example := [[x01]; [x02]; [x03]].

(** * Properties *)

(** ** [gather_files]: the loop over a list that grows *)

Section GatherFiles.

Variable path : string.

(** While the iterator is inside the list it stays inside: every pass
    moves the index by one and lengthens the list by one. *)
Lemma gather_files_inner_diverges (fuel : nat) :
  forall (files : list string) (idx : nat),
    (idx < length files)%nat -> gather_files_inner fuel path files idx = None.
Proof.
  induction fuel as [|fuel IH]; intros files idx Hlt; simpl; [reflexivity|].
  destruct (lookup_lt_is_Some_2 files idx Hlt) as [cur_file Hcur].
  rewrite Hcur. apply IH. rewrite length_app. simpl. lia.
Qed.

Lemma gather_files_inner_empty (fuel : nat) :
  gather_files_inner (S fuel) path [] 0 = Some [].
Proof. reflexivity. Qed.

(** The inner loop returns only on a list without elements. *)
Lemma gather_files_inner_returns (fuel : nat) (files out : list string) :
  gather_files_inner fuel path files 0 = Some out -> files = [] /\ out = [].
Proof.
  destruct files as [|f files].
  - destruct fuel; simpl; [discriminate|]. intros [= <-]. auto.
  - rewrite gather_files_inner_diverges; [discriminate|]. simpl. lia.
Qed.

Lemma gather_files_outer_diverges (fuel : nat) (walk : list Os.walk_entry) :
  Exists (fun e => e.2 <> []) walk ->
  forall files, gather_files_outer fuel path walk files = None.
Proof.
  induction walk as [|[[dirpath dirnames] filenames] walk IH]; intros Hex files.
  - inversion Hex.
  - simpl. destruct (gather_files_inner fuel path filenames 0) as [out|] eqn:Hin;
      [|reflexivity].
    apply gather_files_inner_returns in Hin as [-> ->].
    apply IH. inversion Hex as [? ? Hhd|? ? Htl]; [|assumption].
    simpl in Hhd. congruence.
Qed.

Lemma gather_files_outer_returns (fuel : nat) (walk : list Os.walk_entry) :
  forall files out,
    gather_files_outer fuel path walk files = Some out ->
    Forall (fun e => e.2 = []) walk /\ (out = files \/ out = []).
Proof.
  induction walk as [|[[dirpath dirnames] filenames] walk IH]; intros files out.
  - simpl. intros [= <-]. auto.
  - simpl. destruct (gather_files_inner fuel path filenames 0) as [mid|] eqn:Hin;
      [|discriminate].
    apply gather_files_inner_returns in Hin as [-> ->].
    intros Hout. apply IH in Hout as [Hall Hout]. split.
    + constructor; [reflexivity|assumption].
    + right. destruct Hout; assumption.
Qed.

Lemma gather_files_outer_empty (fuel : nat) (walk : list Os.walk_entry) :
  Forall (fun e => e.2 = []) walk ->
  forall files, exists out,
    gather_files_outer (S fuel) path walk files = Some out /\ (out = files \/ out = []).
Proof.
  induction 1 as [|[[dirpath dirnames] filenames] walk Hhd _ IH]; intros files.
  - exists files. auto.
  - simpl in Hhd. subst filenames.
    cbn [gather_files_outer]. rewrite gather_files_inner_empty.
    destruct (IH []) as (out & Hout & Hcase). exists out. split; [assumption|].
    right. destruct Hcase; assumption.
Qed.

End GatherFiles.

(** [gather_files] never returns a list: whenever it ends, it ends in the
    Not-Found error. *)
Lemma gather_files_returns (fuel : nat) (ds : gmap string Os.dir) (path : string)
  (function : bool) (r : result (list string)) :
  gather_files fuel ds path function = Some r ->
  Forall (fun e => e.2 = []) (os_walk ds path)
  /\ r = Err (FileNotFoundError no_files_message).
Proof.
  unfold gather_files.
  destruct (gather_files_outer fuel path (os_walk ds path) []) as [out|] eqn:Hout;
    [|discriminate].
  apply gather_files_outer_returns in Hout as [Hall Hout].
  assert (out = []) as -> by (destruct Hout; assumption).
  simpl. intros [= <-]. split; [assumption|reflexivity].
Qed.

(** C2. [gather_files] does not terminate when the walk yields a directory
    with at least one file: whatever the fuel, the inner loop is still
    running.  It terminates exactly when every directory of the walk has no
    file, and then it raises the Not-Found error. *)
Theorem gather_files_terminates_iff_no_file
  (ds : gmap string Os.dir) (path : string) (function : bool) :
  (Exists (fun e => e.2 <> []) (os_walk ds path) ->
   forall fuel, gather_files fuel ds path function = None)
  /\ (Forall (fun e => e.2 = []) (os_walk ds path) ->
      forall fuel, gather_files (S fuel) ds path function
                   = Some (Err (FileNotFoundError no_files_message)))
  /\ (forall fuel r, gather_files fuel ds path function = Some r ->
      Forall (fun e => e.2 = []) (os_walk ds path)).
Proof.
  split; [|split].
  - intros Hex fuel. unfold gather_files.
    rewrite gather_files_outer_diverges; [reflexivity|assumption].
  - intros Hall fuel.
    destruct (gather_files_outer_empty path fuel _ Hall []) as (out & Hout & Hcase).
    destruct (gather_files (S fuel) ds path function) as [r|] eqn:Hg.
    + apply gather_files_returns in Hg as [_ ->]. reflexivity.
    + unfold gather_files in Hg. rewrite Hout in Hg.
      destruct (length _ =? 0)%nat; discriminate.
  - intros fuel r Hg. apply gather_files_returns in Hg as [Hall _]. assumption.
Qed.

Lemma gather_files_terminates_iff_no_file_witness :
  (forall fuel, gather_files fuel one_txt_dir "in" true = None)
  /\ gather_files 1 empty_dir "in" true = Some (Err (FileNotFoundError no_files_message)).
Proof.
  split.
  - apply (proj1 (gather_files_terminates_iff_no_file one_txt_dir "in" true)).
    vm_compute. apply Exists_cons_hd. discriminate.
  - apply (proj1 (proj2 (gather_files_terminates_iff_no_file empty_dir "in" true))).
    vm_compute. repeat constructor.
Defined.

(** C4. On a directory whose only file is [a.txt], with function granularity
    requested, [gather_files] returns no list: it never leaves its inner
    loop.  On a directory whose only file is [a.bin] it does not raise the
    Not-Found error either, for the same reason. *)
Theorem gather_files_matching_file_diverges :
  (forall fuel, gather_files fuel one_txt_dir "in" true = None)
  /\ (forall fuel, gather_files fuel one_bin_dir "in" true = None).
Proof.
  split; intros fuel; unfold gather_files;
    (rewrite gather_files_outer_diverges; [reflexivity|]);
    vm_compute; apply Exists_cons_hd; discriminate.
Qed.

(** ** Slices and ranges *)

Lemma slice_take_drop {A} (l : list A) (a b : nat) :
  (a <= b)%nat ->
  Py.slice l (Some (Z.of_nat a)) (Some (Z.of_nat b)) = take (b - a) (drop a l).
Proof.
  intros Hab. unfold Py.slice, Py.clamp, Py.len.
  destruct (Z.ltb_spec (Z.of_nat a) 0) as [?|_]; [lia|].
  destruct (Z.ltb_spec (Z.of_nat b) 0) as [?|_]; [lia|].
  destruct (decide (a <= length l)%nat) as [Ha|Ha].
  - replace (Z.to_nat (Z.of_nat a `min` Z.of_nat (length l))) with a by lia.
    destruct (decide (b <= length l)%nat) as [Hb|Hb].
    + f_equal. lia.
    + rewrite !take_ge; [reflexivity| |]; rewrite length_drop; lia.
  - rewrite (drop_ge l a) by lia. rewrite take_nil.
    rewrite drop_ge by lia. apply take_nil.
Qed.

(** For every integer [k], [l[:k]] followed by [l[k:]] is [l]. *)
Lemma slice_split {A} (l : list A) (k : Z) :
  Py.slice l None (Some k) ++ Py.slice l (Some k) None = l.
Proof.
  unfold Py.slice. rewrite Z.sub_0_r.
  change (Z.to_nat 0) with 0%nat. rewrite drop_0.
  set (c := Py.clamp (Py.len l) k).
  assert (0 <= c <= Py.len l) as Hc.
  { unfold c, Py.clamp, Py.len. destruct (Z.ltb_spec k 0); lia. }
  rewrite (take_ge (drop (Z.to_nat c) l)); [apply take_drop|].
  rewrite length_drop. unfold Py.len in *. lia.
Qed.

Lemma slice_prefix_length {A} (l : list A) (k : Z) :
  0 <= k <= Py.len l -> length (Py.slice l None (Some k)) = Z.to_nat k.
Proof.
  intros Hk. unfold Py.slice, Py.clamp, Py.len in *.
  change (Z.to_nat 0) with 0%nat. rewrite drop_0.
  destruct (Z.ltb_spec k 0) as [?|_]; [lia|].
  rewrite length_take. lia.
Qed.

(** Cutting a list into consecutive slices of [step] elements and joining
    the slices gives a prefix of the list. *)
Lemma concat_slices_take {A} (l : list A) (step : nat) (m : nat) :
  concat (map (fun i => Py.slice l (Some i) (Some (i + Z.of_nat step)))
              (map (fun i => 0 + Z.of_nat i * Z.of_nat step) (seq 0 m)))
  = take (m * step) l.
Proof.
  induction m as [|m IH].
  - reflexivity.
  - rewrite seq_S, !map_app, concat_app, IH. simpl. rewrite app_nil_r.
    replace (0 + Z.of_nat m * Z.of_nat step) with (Z.of_nat (m * step)) by lia.
    replace (Z.of_nat (m * step) + Z.of_nat step)
      with (Z.of_nat (m * step + step)) by lia.
    rewrite slice_take_drop by lia.
    replace (m * step + step - m * step)%nat with step by lia.
    rewrite take_take_drop. f_equal. lia.
Qed.

(** ** [read_and_clean_content] at raw granularity *)

(** With a positive [features], slicing the list of blobs and flattening
    the slices gives back the list of blobs: one example per file, whatever
    its length. *)
Lemma read_and_clean_content_raw (fs : gmap string (list byte)) (files : list string)
  (features : Z) :
  0 < features ->
  read_and_clean_content fs files false features = read_files_raw fs files.
Proof.
  intros Hpos. unfold read_and_clean_content.
  destruct (read_files_raw fs files) as [x|e]; [|reflexivity].
  simpl. unfold Py.range.
  destruct (Z.eqb_spec features 0) as [?|_]; [lia|].
  destruct (Z.ltb_spec 0 features) as [_|?]; [|lia].
  simpl. f_equal.
  assert (features = Z.of_nat (Z.to_nat features)) as Hnat by lia.
  revert Hpos. rewrite Hnat. generalize (Z.to_nat features). clear.
  intros step Hpos.
  rewrite concat_slices_take. apply take_ge.
  unfold Py.len.
  destruct (Z.ltb_spec 0 (Z.of_nat (length x))) as [Hlen|Hlen]; [|lia].
  pose proof (Z.mul_succ_div_gt (Z.of_nat (length x) - 0 - 1) (Z.of_nat step) Hpos).
  nia.
Qed.

(** C3. On one raw file of five bytes and [features = 2], the encoder
    returns a single example, the whole file of five bytes: the stream is
    not cut into windows of two bytes, and no byte is discarded. *)
Theorem read_and_clean_content_raw_keeps_whole_files :
  read_and_clean_content one_raw_file ["in/a.bin"] false 2 = Ok [five_bytes]
  /\ length [five_bytes] <> Z.to_nat (Py.len five_bytes / 2)
  /\ Py.len five_bytes <> 2.
Proof.
  split; [|split; discriminate].
  rewrite read_and_clean_content_raw by lia. reflexivity.
Qed.

(** ** [read_and_clean_content] at function granularity *)

Lemma fold_read_line (ls : list string) :
  forall functions,
    fold_left read_line ls functions
    = functions ++ List.filter retained (map (Py.strip Py.newline) ls).
Proof.
  induction ls as [|l ls IH]; intros functions; simpl.
  - symmetry. apply app_nil_r.
  - rewrite IH. unfold read_line, retained.
    destruct (_ || _ || _); simpl; [reflexivity|].
    rewrite <- app_assoc. reflexivity.
Qed.

Lemma read_files_function_loop_spec (fs : gmap string (list byte)) (files_list : list string) :
  forall contents functions,
    rmap (open fs) files_list = Ok contents ->
    read_files_function_loop fs files_list functions
    = Ok (functions ++ concat (map samples_of contents)).
Proof.
  induction files_list as [|cur_file files_list IH]; intros contents functions; simpl.
  - intros [= <-]. simpl. rewrite app_nil_r. reflexivity.
  - destruct (open fs cur_file) as [f|e]; [|discriminate]. simpl.
    destruct (rmap (open fs) files_list) as [cs|e]; [|discriminate]. simpl.
    intros [= <-]. rewrite (IH cs) by reflexivity.
    rewrite fold_read_line. simpl. rewrite <- app_assoc. reflexivity.
Qed.

Lemma retained_spec (line : string) :
  retained line = true <-> line <> "FF," /\ line <> EmptyString /\ line <> "[]".
Proof.
  unfold retained.
  destruct (String.eqb_spec line "FF,"), (String.eqb_spec line EmptyString),
    (String.eqb_spec line "[]"); simpl; intuition congruence.
Qed.

(** Every sample that is read is a retained line. *)
Lemma samples_retained (contents : list (list byte)) (line : string) :
  line ∈ concat (map samples_of contents) -> retained line = true.
Proof.
  rewrite list_elem_of_In, in_concat. intros (x & Hx & Hin).
  apply in_map_iff in Hx as (c & <- & _).
  apply filter_In in Hin as [_ Hin]. exact Hin.
Qed.

(** [rmap] gives one output per input, in order. *)
Lemma rmap_Forall2 {A B} (f : A -> result B) (l : list A) :
  forall out, rmap f l = Ok out -> Forall2 (fun a b => f a = Ok b) l out.
Proof.
  induction l as [|a l IH]; intros out; simpl.
  - intros [= <-]. constructor.
  - destruct (f a) as [b|e] eqn:Hfa; [|discriminate]. simpl.
    destruct (rmap f l) as [bs|e]; [|discriminate]. simpl.
    intros [= <-]. constructor; [assumption|]. apply IH. reflexivity.
Qed.

(** C7. At function granularity, when every file can be opened, reading
    then encoding decodes the retained lines one by one, in order, each by
    removing the commas and hex-decoding: the output has one example per
    retained line.  The line [DE,AD,C0,DE] gives the four bytes DE AD C0 DE.
    The empty line and the lines ["[]"] and ["FF,"] are not retained, and the retained
    lines are exactly the others. *)
Theorem read_and_clean_content_function
  (fs : gmap string (list byte)) (files : list string) (contents : list (list byte))
  (features : Z) :
  rmap (open fs) files = Ok contents ->
  read_files_function fs files = Ok (concat (map samples_of contents))
  /\ read_and_clean_content fs files true features
     = rmap decode_sample (concat (map samples_of contents))
  /\ (forall out, read_and_clean_content fs files true features = Ok out ->
      Forall2 (fun line ex => decode_sample line = Ok ex)
              (concat (map samples_of contents)) out)
  /\ decode_sample "DE,AD,C0,DE" = Ok [xde; xad; xc0; xde]
  /\ retained EmptyString = false /\ retained "[]" = false /\ retained "FF," = false
  /\ (forall line, line ∈ concat (map samples_of contents) ->
      line <> EmptyString /\ line <> "[]" /\ line <> "FF,")
  /\ (forall line, retained line = true <->
      line <> "FF," /\ line <> EmptyString /\ line <> "[]").
Proof.
  intros Hopen.
  assert (read_files_function fs files = Ok (concat (map samples_of contents))) as Hread.
  { unfold read_files_function.
    rewrite (read_files_function_loop_spec fs files contents []) by assumption.
    reflexivity. }
  assert (read_and_clean_content fs files true features
          = rmap decode_sample (concat (map samples_of contents))) as Henc.
  { unfold read_and_clean_content. rewrite Hread. simpl. unfold encode_opcodes.
    generalize (concat (map samples_of contents)). clear.
    induction l as [|a l IH]; simpl; [reflexivity|].
    unfold decode_sample at 2. rewrite IH. reflexivity. }
  split; [exact Hread|]. split; [exact Henc|]. split.
  { intros out Hout. apply rmap_Forall2. rewrite <- Henc. assumption. }
  do 4 (split; [reflexivity|]). split; [|apply retained_spec].
  intros line Hin. apply samples_retained in Hin.
  repeat split; intros ->; discriminate.
Qed.

Lemma read_and_clean_content_function_witness :
  read_and_clean_content one_text_file ["in/a.txt"] true 4 = Ok [[xde; xad; xc0; xde]].
Proof.
  rewrite (proj1 (proj2 (read_and_clean_content_function
             one_text_file ["in/a.txt"] [list_byte_of_string sample_text] 4
             ltac:(reflexivity)))).
  reflexivity.
Defined.

(** ** What the steps of a run do to the world *)

Lemma extends_by_refl (ok : event -> bool) (w : World) : extends_by ok w w.
Proof.
  repeat split. exists []. split; [symmetry; apply app_nil_r | constructor].
Qed.

Lemma extends_by_trans (ok : event -> bool) (w1 w2 w3 : World) :
  extends_by ok w1 w2 -> extends_by ok w2 w3 -> extends_by ok w1 w3.
Proof.
  intros (Hd1 & Hf1 & evs1 & Ht1 & Ho1) (Hd2 & Hf2 & evs2 & Ht2 & Ho2).
  repeat split; [congruence | congruence |].
  exists (evs1 ++ evs2). split.
  - rewrite Ht2, Ht1, <- app_assoc. reflexivity.
  - apply Forall_app. auto.
Qed.

Lemma extends_by_weaken (ok ok' : event -> bool) (w w' : World) :
  (forall ev, ok ev = true -> ok' ev = true) ->
  extends_by ok w w' -> extends_by ok' w w'.
Proof.
  intros Himp (Hd & Hf & evs & Ht & Ho). repeat split; [assumption..|].
  exists evs. split; [assumption|]. eapply Forall_impl; [exact Ho|]. exact Himp.
Qed.

Lemma extends_by_log (ok : event -> bool) (ev : event) (w : World) :
  ok ev = true -> extends_by ok w (log ev w).
Proof.
  intros Hok. repeat split. exists [ev]. split; [reflexivity|].
  constructor; [assumption|constructor].
Qed.

Lemma extends_by_with_store (ok : event -> bool) (r : store_ref) (ds : BinaryDs.t)
  (w : World) : extends_by ok w (with_store r ds w).
Proof.
  destruct r; repeat split; exists []; (split; [symmetry; apply app_nil_r | constructor]).
Qed.

Lemma store_with_store (r : store_ref) (ds : BinaryDs.t) (w : World) :
  store r (with_store r ds w) = ds.
Proof. destruct r; reflexivity. Qed.

Lemma store_log (r : store_ref) (ev : event) (w : World) :
  store r (log ev w) = store r w.
Proof. destruct r; reflexivity. Qed.

(** ** [read_dataset] *)

(** [read_dataset], case by case. *)
Lemma read_dataset_unfold (r : store_ref) (function : bool) (features : Z) (w : World) :
  read_dataset r function features w =
  match disk w !! BinaryDs.path (store r w) with
  | None => (Ok tt, world_fresh r function features w)
  | Some f =>
      if bool_decide (BinaryDs.file_function_granularity f ≠ Some function)
      then (Err (ValueError granularity_message), world_loaded r f w)
      else if bool_decide (BinaryDs.file_features f ≠ Some features)
      then (Err (ValueError features_message), world_loaded r f w)
      else (Ok tt, world_loaded r f w)
  end.
Proof.
  destruct r;
    unfold read_dataset, try_except, bind, Ds.read, BinaryDs.read, world_loaded,
      world_fresh, Ds.get_function_granularity, Ds.get_features, Ds.set_features,
      Ds.set_function_granularity, raise, ret; cbn;
    (destruct (disk w !! _) as [f|]; cbn; [|reflexivity]);
    repeat case_bool_decide; cbn in *; try reflexivity; congruence.
Qed.

Lemma world_loaded_extends (r : store_ref) (f : BinaryDs.file) (w : World) :
  extends_by opens_store w (world_loaded r f w).
Proof.
  unfold world_loaded. eapply extends_by_trans;
    [apply (extends_by_log opens_store (EvRead r)); reflexivity
    |apply extends_by_with_store].
Qed.

Lemma world_fresh_extends (r : store_ref) (function : bool) (features : Z) (w : World) :
  extends_by opens_store w (world_fresh r function features w).
Proof.
  unfold world_fresh.
  repeat (first
    [ apply extends_by_refl
    | eapply extends_by_trans; [|apply extends_by_with_store]
    | eapply extends_by_trans; [|apply extends_by_log; reflexivity] ]).
Qed.

(** Whatever its outcome, [read_dataset] only opens the store. *)
Lemma read_dataset_extends (r : store_ref) (function : bool) (features : Z) (w : World) :
  extends_by opens_store w (read_dataset r function features w).2.
Proof.
  rewrite read_dataset_unfold.
  destruct (disk w !! BinaryDs.path (store r w)) as [f|].
  - repeat case_bool_decide; apply world_loaded_extends.
  - apply world_fresh_extends.
Qed.

Lemma read_dataset_mismatch (r : store_ref) (function : bool) (features : Z)
  (w : World) (f : BinaryDs.file) :
  disk w !! BinaryDs.path (store r w) = Some f ->
  schema_differs f function features ->
  exists msg, read_dataset r function features w
              = (Err (ValueError msg), world_loaded r f w).
Proof.
  intros Hf Hdiff. rewrite read_dataset_unfold, Hf.
  destruct Hdiff as [Hg|Hn].
  - rewrite bool_decide_eq_true_2 by assumption. eauto.
  - case_bool_decide; [eauto|]. rewrite bool_decide_eq_true_2 by assumption. eauto.
Qed.

(** ** Computations that only make calls of a given kind *)

Section OnlyCalls.

Variable ok : event -> bool.








End OnlyCalls.


(** ** The call of [read_and_clean_content] in [run_preprocess] *)

(** Two arguments do not bind to three parameters. *)
Lemma call_read_and_clean_content_two_args (a b : pyval) (w : World) :
  exists msg, call_read_and_clean_content [a; b] w = (Err (TypeError msg), w).
Proof. eexists. reflexivity. Qed.

(** With three arguments the body runs. *)
Lemma call_read_and_clean_content_three_args (files : list string) (function : bool)
  (features : Z) (w : World) :
  call_read_and_clean_content [VStrList files; VBool function; VInt features] w
  = (read_and_clean_content (fs_files w) files function features, w).
Proof. reflexivity. Qed.

(** Once [files] is bound, the run ends in an exception, and before that it
    only opens the stores. *)
Lemma run_preprocess_with_files_raises (ratio : Q) (files : list string) (category : Z)
  (function : bool) (features : Z) (split : float) (w : World) :
  (exists e, (run_preprocess_with_files ratio files category function features split w).1
             = Err e)
  /\ extends_by opens_store w
       (run_preprocess_with_files ratio files category function features split w).2.
Proof.
  unfold run_preprocess_with_files, bind.
  pose proof (read_dataset_extends Train function features w) as H1.
  destruct (read_dataset Train function features w) as [[[]|e1] w1]; simpl in H1;
    [|split; [eauto|assumption]].
  pose proof (read_dataset_extends Test function features w1) as H2.
  destruct (read_dataset Test function features w1) as [[[]|e2] w2]; simpl in H2;
    [|split; [eauto|eapply extends_by_trans; eassumption]].
  simpl. split; [eauto|eapply extends_by_trans; eassumption].
Qed.

Lemma extends_by_init_stores (ok : event -> bool) (a b : BinaryDs.t) (w : World) :
  extends_by ok w (with_store Test b (with_store Train a w)).
Proof. eapply extends_by_trans; apply extends_by_with_store. Qed.

(** C1. When both [read_dataset] calls succeed, [run_preprocess] goes on to
    call [read_and_clean_content] with two arguments and raises [TypeError]
    there, in the world the two calls left.  Hence no run returns normally,
    and no run makes a call of the shuffle, append or rebalance stages. *)
Theorem run_preprocess_raises_TypeError (ratio : Q) :
  (forall files category function features split w w1 w2,
      read_dataset Train function features w = (Ok tt, w1) ->
      read_dataset Test function features w1 = (Ok tt, w2) ->
      exists msg,
        run_preprocess_with_files ratio files category function features split w
        = (Err (TypeError msg), w2))
  /\ (forall files function w,
        exists msg,
          call_read_and_clean_content [VStrList files; VBool function] w
          = (Err (TypeError msg), w))
  /\ (forall fuel input_dir category model_dir function features split w res w',
        run_preprocess ratio fuel input_dir category model_dir function features split w
        = Some (res, w') ->
        (exists e, res = Err e)
        /\ extends_by (fun ev => negb (after_encoding ev)) w w').
Proof.
  split; [|split].
  - intros files category function features split w w1 w2 H1 H2.
    unfold run_preprocess_with_files, bind. rewrite H1, H2. eexists. reflexivity.
  - intros files function w. apply call_read_and_clean_content_two_args.
  - intros fuel input_dir category model_dir function features split w res w'.
    unfold run_preprocess.
    set (w0 := with_store Test _ (with_store Train _ w)).
    assert (extends_by (fun ev => negb (after_encoding ev)) w w0) as H0
      by apply extends_by_init_stores.
    destruct (gather_files fuel (fs_dirs w0) input_dir function) as [[files|e]|];
      [| |discriminate].
    + destruct (run_preprocess_with_files_raises ratio files category function
                  features split w0) as [[e He] Hext].
      intros Hrun. injection Hrun as Hrun. rewrite Hrun in He, Hext. simpl in He, Hext.
      split; [eauto|]. eapply extends_by_trans; [exact H0|].
      eapply extends_by_weaken; [|exact Hext]. intros []; simpl; congruence.
    + intros [= <- <-]. split; [eauto|assumption].
Qed.

Lemma run_preprocess_raises_TypeError_witness :
  exists msg,
    run_preprocess_with_files (1 # 2) ["in/a.txt"] 0 true 4 one_half fresh_world
    = (Err (TypeError msg),
       world_fresh Test true 4 (world_fresh Train true 4 fresh_world)).
Proof.
  apply (proj1 (run_preprocess_raises_TypeError (1 # 2))
           ["in/a.txt"] 0 true 4 one_half fresh_world
           (world_fresh Train true 4 fresh_world)
           (world_fresh Test true 4 (world_fresh Train true 4 fresh_world)));
    reflexivity.
Defined.

(** C5. A store whose file is found with a granularity or a number of
    features that differs from the requested one makes [read_dataset] raise
    a [ValueError]; by then the store has only been loaded.  In a run this
    happens for either store before any call that mutates a store ([set],
    [rebalance]) or the disk ([write]), and the disk is as it was.  A store
    whose file is not found is initialised instead: [read_dataset] succeeds
    and has set the requested features and granularity. *)
Theorem read_dataset_checks_schema (ratio : Q) :
  (forall r function features w f,
      disk w !! BinaryDs.path (store r w) = Some f ->
      schema_differs f function features ->
      exists msg, read_dataset r function features w
                  = (Err (ValueError msg), world_loaded r f w))
  /\ (forall files category function features split w,
        (exists f, disk w !! BinaryDs.path (train w) = Some f
                   /\ schema_differs f function features)
        \/ (exists w1 f, read_dataset Train function features w = (Ok tt, w1)
                         /\ disk w1 !! BinaryDs.path (test w1) = Some f
                         /\ schema_differs f function features) ->
        exists msg w',
          run_preprocess_with_files ratio files category function features split w
          = (Err (ValueError msg), w')
          /\ extends_by (fun ev => negb (mutates ev)) w w')
  /\ (forall r function features w,
        disk w !! BinaryDs.path (store r w) = None ->
        let w' := world_fresh r function features w in
        read_dataset r function features w = (Ok tt, w')
        /\ BinaryDs.get_features (store r w') = Some features
        /\ BinaryDs.get_function_granularity (store r w') = Some function
        /\ BinaryDs.categories (store r w') = BinaryDs.categories (store r w)
        /\ disk w' = disk w).
Proof.
  split; [|split].
  - intros r function features w f. apply read_dataset_mismatch.
  - intros files category function features split w Hcase.
    assert (forall ev, opens_store ev = true -> negb (mutates ev) = true) as Himp
      by (intros []; simpl; congruence).
    unfold run_preprocess_with_files, bind.
    destruct Hcase as [(f & Hf & Hdiff)|(w1 & f & H1 & Hf & Hdiff)].
    + destruct (read_dataset_mismatch Train function features w f Hf Hdiff) as [msg Hr].
      rewrite Hr. exists msg, (world_loaded Train f w). split; [reflexivity|].
      eapply extends_by_weaken; [exact Himp|apply world_loaded_extends].
    + rewrite H1.
      destruct (read_dataset_mismatch Test function features w1 f Hf Hdiff) as [msg Hr].
      rewrite Hr. exists msg, (world_loaded Test f w1). split; [reflexivity|].
      eapply extends_by_weaken; [exact Himp|].
      eapply extends_by_trans; [|apply world_loaded_extends].
      pose proof (read_dataset_extends Train function features w) as Hext.
      rewrite H1 in Hext. exact Hext.
  - intros r function features w Hnone. simpl.
    rewrite read_dataset_unfold, Hnone.
    destruct r; repeat split.
Qed.

Lemma read_dataset_checks_schema_witness :
  (exists msg, read_dataset Train true 8 persisted_world
               = (Err (ValueError msg),
                  world_loaded Train
                    (BinaryDs.File (Some 4) (Some true) {[ 0 := [[xde; xad; xc0; xde]] ]})
                    persisted_world))
  /\ read_dataset Test true 8 persisted_world
     = (Ok tt, world_fresh Test true 8 persisted_world).
Proof.
  split.
  - apply (proj1 (read_dataset_checks_schema (1 # 2))).
    + reflexivity.
    + right. simpl. discriminate.
  - apply (proj2 (proj2 (read_dataset_checks_schema (1 # 2))) Test true 8 persisted_world).
    reflexivity.
Defined.


(** The trace of lines 38 to 49 on a batch of one example, nothing
    persisted before: six calls, none of them [write], and an empty disk. *)
Example store_new_data_trace :
  let out := store_new_data (1 # 2) [[xde; xad; xc0; xde]] 0 one_half fresh_world in
  out.1 = Ok tt
  /\ trace out.2 = [EvShuffle; EvGet Train 0; EvGet Test 0; EvSet Train 0; EvSet Test 0;
                    EvRebalance]
  /\ disk out.2 = ∅.
Proof. vm_compute. repeat split. Qed.

(** ** The append step *)

Lemma get_set_eq (c : Z) (l : list BinaryDs.example) (ds : BinaryDs.t) :
  BinaryDs.get c (BinaryDs.set c l ds) = l.
Proof. unfold BinaryDs.get, BinaryDs.set. simpl. rewrite lookup_insert_eq. reflexivity. Qed.

Lemma get_set_ne (c c' : Z) (l : list BinaryDs.example) (ds : BinaryDs.t) :
  c <> c' -> BinaryDs.get c' (BinaryDs.set c l ds) = BinaryDs.get c' ds.
Proof.
  intros Hne. unfold BinaryDs.get, BinaryDs.set. simpl.
  rewrite lookup_insert_ne by assumption. reflexivity.
Qed.

Lemma append_new_data_unfold (category : Z)
  (new_train_data new_test_data : list BinaryDs.example) (w : World) :
  append_new_data category new_train_data new_test_data w
  = (Ok tt, world_appended category new_train_data new_test_data w).
Proof.
  unfold append_new_data, bind, Ds.get, Ds.set, world_appended, log, with_store. simpl.
  rewrite <- !app_assoc. reflexivity.
Qed.

(** C8. After the append step each store holds, for the category of the
    run, the sequence that [get] returned before followed by the new
    examples of the run; the sequences of the other categories, and the
    disk, are as they were. *)
Theorem append_new_data_extends_category (category : Z)
  (new_train_data new_test_data : list BinaryDs.example) (w : World) :
  let out := append_new_data category new_train_data new_test_data w in
  out.1 = Ok tt
  /\ BinaryDs.get category (train out.2)
     = BinaryDs.get category (train w) ++ new_train_data
  /\ BinaryDs.get category (test out.2)
     = BinaryDs.get category (test w) ++ new_test_data
  /\ (forall c, c <> category ->
        BinaryDs.get c (train out.2) = BinaryDs.get c (train w)
        /\ BinaryDs.get c (test out.2) = BinaryDs.get c (test w))
  /\ disk out.2 = disk w.
Proof.
  rewrite append_new_data_unfold. simpl.
  split; [reflexivity|]. rewrite !get_set_eq.
  split; [reflexivity|]. split; [reflexivity|]. split; [|reflexivity].
  intros c Hne. rewrite !get_set_ne by congruence. split; reflexivity.
Qed.

(** ** Shuffling and splitting *)

Lemma swap_length {A} (x : list A) (i j : nat) : length (Py.swap x i j) = length x.
Proof.
  unfold Py.swap. destruct (x !! i), (x !! j); try reflexivity.
  rewrite !length_insert. reflexivity.
Qed.

(** Exchanging two elements permutes the list. *)
Lemma swap_Permutation {A} (x : list A) (i j : nat) : Permutation (Py.swap x i j) x.
Proof.
  unfold Py.swap.
  destruct (x !! i) as [xi|] eqn:Hi; [|reflexivity].
  destruct (x !! j) as [xj|] eqn:Hj; [|reflexivity].
  pose proof (lookup_lt_Some _ _ _ Hi) as Hli.
  pose proof (lookup_lt_Some _ _ _ Hj) as Hlj.
  apply Permutation_inj. split; [rewrite !length_insert; reflexivity|].
  exists (fun n => if decide (n = i) then j else if decide (n = j) then i else n).
  split.
  - intros n m. repeat case_decide; intros; subst; congruence.
  - intros n. destruct (decide (n = j)) as [->|Hnj].
    + rewrite list_lookup_insert_eq by (rewrite length_insert; assumption).
      case_decide; subst; congruence.
    + rewrite list_lookup_insert_ne by congruence.
      destruct (decide (n = i)) as [->|Hni].
      * rewrite list_lookup_insert_eq by assumption. congruence.
      * rewrite list_lookup_insert_ne by congruence. reflexivity.
Qed.

Lemma shuffle_from_Permutation {A} (rand : nat -> nat) (i : nat) :
  forall (x : list A) (pos : nat), Permutation (Py.shuffle_from i x rand pos).1 x.
Proof.
  induction i as [|i IH]; intros x pos; simpl; [reflexivity|].
  rewrite IH. apply swap_Permutation.
Qed.

(** [random.shuffle] permutes its argument, whatever the random source. *)
Lemma shuffle_Permutation {A} (x : list A) (rand : nat -> nat) (pos : nat) :
  Permutation (Py.shuffle x rand pos).1 x.
Proof. apply shuffle_from_Permutation. Qed.

Lemma shuffle_length {A} (x : list A) (rand : nat -> nat) (pos : nat) :
  length (Py.shuffle x rand pos).1 = length x.
Proof. apply Permutation_length, shuffle_Permutation. Qed.

(** ** The product [len(data) * split] in binary64 *)

Section Binary64.

Local Abbreviation fexp64 := (SpecFloat.fexp prec emax).

Lemma digits2_pos_size (p : positive) : digits2_pos p = Pos.size p.
Proof. induction p; simpl; congruence. Qed.

(** A positive number of [d] binary digits lies in [2^(d-1) .. 2^d - 1]. *)
Lemma digits2_pos_bounds (p : positive) :
  2 ^ (Z.pos (digits2_pos p) - 1) <= Z.pos p < 2 ^ Z.pos (digits2_pos p).
Proof.
  rewrite digits2_pos_size. split.
  - pose proof (Pos.size_le p) as H.
    assert (2 ^ Z.pos (Pos.size p) <= Z.pos p~0) as H'.
    { rewrite <- Pos2Z.inj_pow. apply Pos2Z.pos_le_pos. exact H. }
    replace (Z.pos (Pos.size p)) with (Z.succ (Z.pos (Pos.size p) - 1)) in H' by lia.
    rewrite Z.pow_succ_r in H' by lia. lia.
  - pose proof (Pos.size_gt p) as H.
    rewrite <- Pos2Z.inj_pow. apply Pos2Z.pos_lt_pos. exact H.
Qed.

Lemma digits2_pos_le (p : positive) (b : Z) :
  0 <= b -> Z.pos p < 2 ^ b -> Z.pos (digits2_pos p) <= b.
Proof.
  intros Hb Hp. pose proof (digits2_pos_bounds p) as [Hlo _].
  destruct (Z_le_gt_dec (Z.pos (digits2_pos p)) b) as [?|Hgt]; [assumption|exfalso].
  assert (2 ^ b <= 2 ^ (Z.pos (digits2_pos p) - 1)) by (apply Z.pow_le_mono_r; lia).
  lia.
Qed.

(** One step of [shr] halves the mantissa. *)
Lemma shr_1_m (mrs : shr_record) :
  0 <= shr_m mrs -> shr_m (shr_1 mrs) = shr_m mrs / 2.
Proof.
  destruct mrs as [m r s]. simpl. intros Hm.
  destruct m as [|[p|p|]|p]; simpl; try reflexivity; try lia.
  - rewrite Pos2Z.inj_xI. apply Z.div_unique with 1; lia.
  - rewrite Pos2Z.inj_xO. apply Z.div_unique with 0; lia.
Qed.

Lemma iter_shr_1_m (p : positive) :
  forall mrs, 0 <= shr_m mrs ->
    shr_m (SpecFloat.iter_pos shr_1 p mrs) = shr_m mrs / 2 ^ Z.pos p.
Proof.
  induction p as [p IH|p IH|]; intros mrs Hm; cbn [SpecFloat.iter_pos].
  - assert (2 ^ Z.pos p~1 = 2 * 2 ^ Z.pos p * 2 ^ Z.pos p) as ->.
    { assert (Z.pos p~1 = Z.succ (Z.pos p + Z.pos p)) as -> by lia.
      rewrite Z.pow_succ_r, Z.pow_add_r by lia. lia. }
    assert (0 <= shr_m (shr_1 mrs)) as H1
      by (rewrite shr_1_m by assumption; apply Z.div_pos; lia).
    assert (0 <= shr_m (SpecFloat.iter_pos shr_1 p (shr_1 mrs))) as H2
      by (rewrite IH by assumption; apply Z.div_pos; lia).
    rewrite IH, IH, shr_1_m by assumption.
    rewrite !Z.div_div by lia. f_equal. lia.
  - assert (2 ^ Z.pos p~0 = 2 ^ Z.pos p * 2 ^ Z.pos p) as ->.
    { assert (Z.pos p~0 = Z.pos p + Z.pos p) as -> by lia.
      rewrite Z.pow_add_r by lia. reflexivity. }
    assert (0 <= shr_m (SpecFloat.iter_pos shr_1 p mrs)) as H2
      by (rewrite IH by assumption; apply Z.div_pos; lia).
    rewrite IH, IH by assumption.
    rewrite !Z.div_div by lia. reflexivity.
  - rewrite shr_1_m by assumption. reflexivity.
Qed.

Lemma Zdigits2_le (m b : Z) : 0 <= m < 2 ^ b -> 0 <= b -> Zdigits2 m <= b.
Proof.
  intros [Hm0 Hmb] Hb. destruct m as [|p|p]; simpl; [assumption| |lia].
  apply digits2_pos_le; assumption.
Qed.

(** [shr_fexp] on an exact mantissa: either nothing is shifted out, or the
    mantissa is divided by a power of two and the exponent grows as much. *)
Lemma shr_fexp_cases (m E : Z) :
  0 <= m ->
  let sh := fexp64 (Zdigits2 m + E) - E in
  let out := shr_fexp prec emax m E loc_Exact in
  (sh <= 0 /\ out = (Build_shr_record m false false, E))
  \/ (0 < sh /\ shr_m out.1 = m / 2 ^ sh /\ out.2 = E + sh).
Proof.
  intros Hm sh out. unfold out, shr_fexp, shr. fold sh.
  destruct sh as [|p|p] eqn:Hsh.
  - left. split; [lia|reflexivity].
  - right. split; [lia|]. split; [|reflexivity]. simpl.
    apply (iter_shr_1_m p (Build_shr_record m false false)). exact Hm.
  - left. split; [lia|reflexivity].
Qed.

Lemma round_nearest_even_bounds (m : Z) (l : location) :
  m <= round_nearest_even m l <= m + 1.
Proof. destruct l as [|[]]; simpl; try lia. destruct (Z.even m); lia. Qed.

Lemma fexp64_nonpos (d : Z) : d <= 53 -> fexp64 d <= 0.
Proof. unfold SpecFloat.fexp, SpecFloat.emin, prec, emax. lia. Qed.

(** A mantissa below [n * 2^(-E)] with [n < 2^53] has at most [53 - E] digits. *)
Lemma Zdigits2_value_le (m E n : Z) :
  0 <= m -> E <= 0 -> 0 < n < 2 ^ 53 -> m <= n * 2 ^ (- E) ->
  Zdigits2 m + E <= 53.
Proof.
  intros Hm HE Hn Hle.
  assert (Zdigits2 m <= 53 - E); [|lia].
  apply Zdigits2_le; [|lia]. split; [assumption|].
  replace (53 - E) with (53 + - E) by lia. rewrite Z.pow_add_r by lia.
  assert (0 < 2 ^ (- E)) by (apply Z.pow_pos_nonneg; lia). nia.
Qed.

(** Shifting keeps a value that is at most [n] at most [n]. *)
Lemma shr_fexp_value_le (m E n : Z) :
  0 <= m -> 0 < n < 2 ^ 53 -> value_le m E n ->
  let out := shr_fexp prec emax m E loc_Exact in
  0 <= shr_m out.1 /\ value_le (shr_m out.1) out.2 n.
Proof.
  intros Hm Hn [HE Hle] out. unfold out. clear out.
  pose proof (Zdigits2_value_le m E n Hm HE Hn Hle) as Hd.
  pose proof (fexp64_nonpos _ Hd) as Hf.
  destruct (shr_fexp_cases m E Hm) as [[Hsh Hout]|(Hsh & Hout1 & Hout2)].
  - rewrite Hout. simpl. split; [assumption|split; assumption].
  - rewrite Hout1, Hout2.
    set (sh := fexp64 (Zdigits2 m + E) - E) in *.
    assert (0 < 2 ^ sh) by (apply Z.pow_pos_nonneg; lia).
    split; [apply Z.div_pos; lia|]. split; [lia|].
    apply Z.div_le_upper_bound; [assumption|].
    replace (- E) with (sh + - (E + sh)) in Hle by lia.
    rewrite Z.pow_add_r in Hle by lia. lia.
Qed.

(** Shifting keeps a value that is at least [lo] at least [lo]. *)
Lemma shr_fexp_value_ge (m E lo n : Z) :
  0 <= m -> 0 < n < 2 ^ 53 -> value_le m E n -> value_ge m E lo ->
  value_ge (shr_m (shr_fexp prec emax m E loc_Exact).1)
           (shr_fexp prec emax m E loc_Exact).2 lo.
Proof.
  intros Hm Hn [HE Hle] Hge. unfold value_ge in *.
  pose proof (Zdigits2_value_le m E n Hm HE Hn Hle) as Hd.
  pose proof (fexp64_nonpos _ Hd) as Hf.
  destruct (shr_fexp_cases m E Hm) as [[Hsh Hout]|(Hsh & Hout1 & Hout2)].
  - rewrite Hout. simpl. assumption.
  - rewrite Hout1, Hout2.
    set (sh := fexp64 (Zdigits2 m + E) - E) in *.
    assert (0 < 2 ^ sh) by (apply Z.pow_pos_nonneg; lia).
    apply Z.div_le_lower_bound; [assumption|].
    replace (- E) with (sh + - (E + sh)) in Hge by lia.
    rewrite Z.pow_add_r in Hge by lia. lia.
Qed.

(** Rounding a positive product that lies between two integers [lo] and
    [n]: the result lies between them too. *)
Lemma binary_round_aux_between (M : positive) (E lo n : Z) :
  E <= 0 -> 0 <= lo -> 0 < n < 2 ^ 53 ->
  lo * 2 ^ (- E) <= Z.pos M < n * 2 ^ (- E) ->
  let r := binary_round_aux prec emax false (Z.pos M) E loc_Exact in
  (r = S754_zero false /\ lo = 0)
  \/ exists m e, r = S754_finite false m e
                 /\ value_le (Z.pos m) e n /\ value_ge (Z.pos m) e lo.
Proof.
  intros HE Hlo Hn [Hge Hlt] r. unfold r, binary_round_aux. clear r.
  assert (0 <= Z.pos M) as HM by lia.
  assert (Z.pos M <= n * 2 ^ (- E)) as Hle by lia.
  pose proof (Zdigits2_value_le _ E n HM HE Hn Hle) as Hd.
  pose proof (fexp64_nonpos _ Hd) as Hf.
  assert (exists M'' e', 0 <= M'' /\ value_le M'' e' n /\ value_ge M'' e' lo
            /\ (let '(mrs', e0) := shr_fexp prec emax (Z.pos M) E loc_Exact in
                (round_nearest_even (shr_m mrs') (loc_of_shr_record mrs'), e0))
               = (M'', e')) as (M'' & e' & HM'' & Hval & Hvge & Heq).
  { pose proof (shr_fexp_value_ge (Z.pos M) E lo n HM Hn (conj HE Hle) Hge) as Hsge.
    destruct (shr_fexp_cases (Z.pos M) E HM) as [[Hsh Hout]|(Hsh & Hout1 & Hout2)].
    - rewrite Hout. simpl. exists (Z.pos M), E. repeat split; assumption.
    - destruct (shr_fexp prec emax (Z.pos M) E loc_Exact) as [mrs' e0].
      cbn [fst snd] in Hout1, Hout2, Hsge. subst e0.
      set (sh := fexp64 (Zdigits2 (Z.pos M) + E) - E) in *.
      pose proof (round_nearest_even_bounds (shr_m mrs') (loc_of_shr_record mrs')) as Hr.
      assert (0 < 2 ^ sh) by (apply Z.pow_pos_nonneg; lia).
      assert (0 <= shr_m mrs') by (rewrite Hout1; apply Z.div_pos; lia).
      eexists _, _. split; [|split; [|split; [|reflexivity]]]; [lia| |].
      + split; [lia|].
        assert (shr_m mrs' < n * 2 ^ (- (E + sh))); [|lia].
        rewrite Hout1. apply Z.div_lt_upper_bound; [assumption|].
        replace (- E) with (sh + - (E + sh)) in Hlt by lia.
        rewrite Z.pow_add_r in Hlt by lia. lia.
      + unfold value_ge in *. lia. }
  destruct (shr_fexp prec emax (Z.pos M) E loc_Exact) as [mrs' e0].
  injection Heq as -> ->.
  destruct (shr_fexp_value_le M'' e' n HM'' Hn Hval) as [Hm3 [He3 Hle3]].
  pose proof (shr_fexp_value_ge M'' e' lo n HM'' Hn Hval Hvge) as Hge3.
  destruct (shr_fexp prec emax M'' e' loc_Exact) as [mrs'' e'']. simpl in *.
  unfold value_ge in Hge3.
  assert (0 < 2 ^ (- e'')) as Hpow by (apply Z.pow_pos_nonneg; lia).
  destruct (shr_m mrs'') as [|m|m]; [left; split; [reflexivity|nia]| |lia].
  right. exists m, e''.
  destruct (Z.leb_spec e'' (emax - prec)) as [_|Hbig];
    [|unfold emax, prec in Hbig; lia].
  split; [reflexivity|]. split; [split; assumption|exact Hge3].
Qed.

(** A mantissa that is canonical for its exponent is not rounded. *)
Lemma binary_round_aux_exact (M : positive) (E : Z) :
  fexp64 (Z.pos (digits2_pos M) + E) <= E -> E <= emax - prec ->
  binary_round_aux prec emax false (Z.pos M) E loc_Exact = S754_finite false M E.
Proof.
  intros Hcanon Hmax. unfold binary_round_aux.
  assert (0 <= Z.pos M) as HM by lia.
  destruct (shr_fexp_cases (Z.pos M) E HM) as [[_ Hout]|[Hsh _]];
    [|simpl Zdigits2 in Hsh; lia].
  rewrite Hout. simpl round_nearest_even. cbn [shr_m]. rewrite Hout. cbn [shr_m].
  destruct (Z.leb_spec E (emax - prec)); [reflexivity|lia].
Qed.

Lemma iter_xO_value (p k : positive) :
  Z.pos (Pos.iter xO p k) = Z.pos p * 2 ^ Z.pos k
  /\ digits2_pos (Pos.iter xO p k) = (digits2_pos p + k)%positive.
Proof.
  induction k as [|k [IHv IHd]] using Pos.peano_ind.
  - simpl. split; [lia|]. rewrite Pos.add_1_r. reflexivity.
  - rewrite Pos.iter_succ. split.
    + rewrite Pos2Z.inj_xO, IHv, Pos2Z.inj_succ, Z.pow_succ_r by lia. lia.
    + simpl. rewrite IHd. lia.
Qed.

(** An integer below [2^53] is converted exactly. *)
Lemma binary_normalize_exact (p : positive) :
  Z.pos p < 2 ^ 53 ->
  exists mN eN,
    binary_normalize prec emax (Z.pos p) 0 false = S754_finite false mN eN
    /\ eN <= 0 /\ Z.pos mN = Z.pos p * 2 ^ (- eN).
Proof.
  intros Hp. unfold binary_normalize, binary_round.
  pose proof (digits2_pos_le p 53 ltac:(lia) Hp) as Hd.
  assert (fexp64 (Z.pos (digits2_pos p) + 0) = Z.pos (digits2_pos p) - 53) as Hf.
  { unfold SpecFloat.fexp, SpecFloat.emin, prec, emax. lia. }
  rewrite Hf. unfold shl_align.
  destruct (Z.pos (digits2_pos p) - 53 - 0) as [|k|k] eqn:Hk; [|lia|].
  - exists p, 0. split; [|split; [lia|simpl; lia]].
    apply binary_round_aux_exact; [|unfold emax, prec; lia].
    unfold SpecFloat.fexp, SpecFloat.emin, prec, emax. lia.
  - destruct (iter_xO_value p k) as [Hv Hdig].
    exists (Pos.iter xO p k), (Z.pos (digits2_pos p) - 53).
    split; [|split; [lia|]].
    + apply binary_round_aux_exact; [|unfold emax, prec; lia].
      rewrite Hdig. unfold SpecFloat.fexp, SpecFloat.emin, prec, emax. lia.
    + rewrite Hv. f_equal. f_equal. lia.
Qed.

(** A float strictly between 0 and 1 is positive, finite and below one. *)
Lemma Prim2SF_unit_interval (x : float) :
  (0 <? x)%float = true -> (x <? 1)%float = true ->
  exists m e, Prim2SF x = S754_finite false m e /\ e < 0 /\ Z.pos m < 2 ^ (- e).
Proof.
  rewrite !FloatAxioms.ltb_spec. intros Hpos Hlt1.
  pose proof (Prim2SF_valid x) as Hvalid.
  change (Prim2SF 0) with (S754_zero false) in Hpos.
  change (Prim2SF 1) with (S754_finite false 4503599627370496 (-52)) in Hlt1.
  destruct (Prim2SF x) as [s|s| |s m e]; try discriminate.
  - destruct s; discriminate.
  - destruct s; [discriminate|].
    exists m, e. split; [reflexivity|].
    unfold SFltb, SFcompare in Hlt1.
    simpl in Hvalid. unfold bounded, canonical_mantissa in Hvalid.
    apply andb_prop in Hvalid as [Hcanon _]. apply Z.eqb_eq in Hcanon.
    assert (Z.pos (digits2_pos m) <= 53) as Hd
      by (revert Hcanon; unfold SpecFloat.fexp, SpecFloat.emin, prec, emax; lia).
    pose proof (digits2_pos_bounds m) as [_ Hm].
    assert (Z.pos m < 2 ^ 53) as Hm53.
    { eapply Z.lt_le_trans; [exact Hm|]. apply Z.pow_le_mono_r; lia. }
    destruct (Z.compare_spec e (-52)) as [->|He|He]; try discriminate.
    + split; [lia|].
      rewrite Pos.compare_cont_spec in Hlt1. cbn [Pos.switch_Eq] in Hlt1.
      destruct (Pos.compare_spec m 4503599627370496) as [|Hc|]; try discriminate.
      change (2 ^ (- (-52))) with 4503599627370496.
      apply Pos2Z.pos_lt_pos. exact Hc.
    + split; [lia|]. eapply Z.lt_le_trans; [exact Hm53|].
      apply Z.pow_le_mono_r; lia.
Qed.

Lemma Qpower_positive_2 (p : positive) :
  (Qpower_positive 2 p == inject_Z (2 ^ Z.pos p))%Q.
Proof.
  change (Qpower_positive 2 p) with (Qpower (inject_Z 2) (Z.pos p)).
  rewrite <- Zpower_Qpower by lia. reflexivity.
Qed.

(** For a positive float below 1 the floor of the exact product is a
    quotient of integers. *)
Lemma exact_floor_product_finite (n : Z) (x : float) (m : positive) (e : Z) :
  Prim2SF x = S754_finite false m e -> e < 0 ->
  exact_floor_product n x = Some ((n * Z.pos m) / 2 ^ (- e)).
Proof.
  intros Hx He. unfold exact_floor_product, float_value. rewrite Hx. f_equal.
  rewrite Zdiv_Qdiv. apply Qfloor_comp.
  destruct e as [|p|p]; [lia|lia|].
  change (- Z.neg p) with (Z.pos p).
  change (Qpower 2 (Z.neg p)) with (/ Qpower_positive 2 p)%Q.
  rewrite Qpower_positive_2, inject_Z_mult. unfold Qdiv. ring.
Qed.

(** For a batch of fewer than [2^53] examples and a ratio strictly between
    0 and 1, the index [math.floor(len(data) * split)] is computed without
    error; it is the floor of the exact product or one more, and lies
    within the batch. *)
Lemma split_index_near_floor (n : Z) (split : float) :
  0 <= n < 2 ^ 53 ->
  (0 <? split)%float = true -> (split <? 1)%float = true ->
  exists k f,
    split_index n split = Ok k /\ exact_floor_product n split = Some f
    /\ f <= k <= f + 1 /\ 0 <= k <= n.
Proof.
  intros Hn Hpos Hlt1.
  destruct (Prim2SF_unit_interval split Hpos Hlt1) as (m & e & Hsplit & He & Hm).
  rewrite (exact_floor_product_finite n split m e Hsplit He).
  unfold split_index, Py.floor, Py.int_mul_float.
  rewrite FloatAxioms.mul_spec, FloatAxioms.of_uint63_spec, Hsplit.
  assert (Uint63Axioms.to_Z (of_Z n) = n) as ->.
  { rewrite of_Z_spec. apply Z.mod_small. split; [lia|].
    eapply Z.lt_le_trans; [apply Hn|]. discriminate. }
  assert (0 < 2 ^ (- e)) as Hpe by (apply Z.pow_pos_nonneg; lia).
  destruct n as [|p|p]; [| |lia].
  - simpl. exists 0, 0. repeat split; lia.
  - set (f := (Z.pos p * Z.pos m) / 2 ^ (- e)).
    assert (0 <= f) as Hf0 by (apply Z.div_pos; lia).
    pose proof (Z.mul_div_le (Z.pos p * Z.pos m) (2 ^ (- e)) Hpe) as Hflo.
    pose proof (Z.mul_succ_div_gt (Z.pos p * Z.pos m) (2 ^ (- e)) Hpe) as Hfhi.
    fold f in Hflo, Hfhi.
    assert (f < Z.pos p) as HfN.
    { apply Z.div_lt_upper_bound; [assumption|]. nia. }
    destruct (binary_normalize_exact p ltac:(lia)) as (mN & eN & HN & HeN & HmN).
    rewrite HN. unfold SF64mul, SFmul. simpl xorb.
    assert (0 < 2 ^ (- eN)) as HpN by (apply Z.pow_pos_nonneg; lia).
    destruct (binary_round_aux_between (mN * m) (eN + e) f (f + 1)
                ltac:(lia) Hf0 ltac:(lia))
      as [[Hz Hfz]|(m' & e' & Hr & [He' Hm'] & Hge')].
    { rewrite Pos2Z.inj_mul, HmN.
      replace (- (eN + e)) with (- eN + - e) by lia. rewrite Z.pow_add_r by lia.
      split; nia. }
    + rewrite Hz. exists 0, f. repeat split; lia.
    + rewrite Hr. unfold value_ge in Hge'.
      assert (0 < 2 ^ (- e')) by (apply Z.pow_pos_nonneg; lia).
      eexists _, f. split; [reflexivity|]. split; [reflexivity|].
      destruct (Z.leb_spec 0 e') as [H0|H0].
      * assert (e' = 0) as -> by lia. simpl in *. lia.
      * assert (f <= Z.pos m' / 2 ^ (- e')) by (apply Z.div_le_lower_bound; lia).
        assert (Z.pos m' / 2 ^ (- e') <= f + 1) by (apply Z.div_le_upper_bound; lia).
        lia.
Qed.

End Binary64.

(** C6. For a batch of [N] examples, [N] below [2^53], and a ratio strictly
    between 0 and 1, the index [k = math.floor(N * split)] that
    [run_preprocess] computes is the floor of the product rounded to a
    float: it is [floor(N * r)] for the exact product or one more, and lies
    within the batch.  The splitter returns the first [k] examples of the
    shuffled batch for the training store and the other [N - k] for the test
    store; the two parts together are the shuffled batch, a permutation of
    the batch.  The splitter reads and changes neither store nor the disk:
    only the new batch is cut. *)
Theorem shuffle_and_split_sizes (data : list BinaryDs.example) (split : float)
  (w : World) :
  Py.len data < 2 ^ 53 ->
  (0 <? split)%float = true -> (split <? 1)%float = true ->
  exists k f new_train_data new_test_data w',
    split_index (Py.len data) split = Ok k
    /\ exact_floor_product (Py.len data) split = Some f
    /\ f <= k <= f + 1
    /\ 0 <= k <= Py.len data
    /\ shuffle_and_split data split w = (Ok (new_train_data, new_test_data), w')
    /\ Py.len new_train_data = k
    /\ Py.len new_test_data = Py.len data - k
    /\ new_train_data ++ new_test_data = (Py.shuffle data (rand w) (rand_pos w)).1
    /\ Permutation (new_train_data ++ new_test_data) data
    /\ train w' = train w /\ test w' = test w /\ disk w' = disk w.
Proof.
  intros Hsmall Hpos Hlt1.
  destruct (split_index_near_floor (Py.len data) split)
    as (k & f & Hk & Hf & Hnear & Hrange);
    [unfold Py.len in *; lia|assumption|assumption|].
  exists k, f.
  unfold shuffle_and_split, bind, random_shuffle, lift, ret.
  pose proof (shuffle_Permutation data (rand w) (rand_pos w)) as Hperm.
  pose proof (shuffle_length data (rand w) (rand_pos w)) as Hlen.
  change (rand (log EvShuffle w)) with (rand w).
  change (rand_pos (log EvShuffle w)) with (rand_pos w).
  destruct (Py.shuffle data (rand w) (rand_pos w)) as [data' pos]. simpl in Hperm, Hlen.
  assert (Py.len data' = Py.len data) as Hlen' by (unfold Py.len; congruence).
  rewrite Hlen', Hk.
  eexists _, _, _. split; [reflexivity|]. split; [assumption|].
  split; [assumption|]. split; [assumption|].
  split; [reflexivity|].
  pose proof (slice_split data' k) as Hsplit.
  pose proof (slice_prefix_length data' k ltac:(lia)) as Hpre.
  assert (length (Py.slice data' None (Some k) ++ Py.slice data' (Some k) None)
          = length data') as Hsum by (rewrite Hsplit; reflexivity).
  rewrite length_app in Hsum.
  repeat split; simpl; try assumption.
  - unfold Py.len. lia.
  - unfold Py.len in *. lia.
  - rewrite Hsplit. assumption.
Qed.

Lemma shuffle_and_split_sizes_witness :
  exists k f new_train_data new_test_data w',
    split_index (Py.len four_blobs) one_half = Ok k
    /\ exact_floor_product (Py.len four_blobs) one_half = Some f
    /\ f <= k <= f + 1
    /\ 0 <= k <= Py.len four_blobs
    /\ shuffle_and_split four_blobs one_half fresh_world
       = (Ok (new_train_data, new_test_data), w')
    /\ Py.len new_train_data = k
    /\ Py.len new_test_data = Py.len four_blobs - k
    /\ new_train_data ++ new_test_data
       = (Py.shuffle four_blobs (rand fresh_world) (rand_pos fresh_world)).1
    /\ Permutation (new_train_data ++ new_test_data) four_blobs
    /\ train w' = train fresh_world /\ test w' = test fresh_world
    /\ disk w' = disk fresh_world.
Proof.
  apply (shuffle_and_split_sizes four_blobs one_half fresh_world); reflexivity.
Defined.

(** With four examples and the ratio one half, two go to each side, as the
    exact product has it. *)
Example split_index_four : split_index (Py.len four_blobs) one_half = Ok 2.
Proof. reflexivity. Qed.

Example exact_floor_product_four :
  exact_floor_product (Py.len four_blobs) one_half = Some 2.
Proof. reflexivity. Qed.

(** With three examples and the ratio one third the two floors differ: the
    ratio lies strictly between 0 and 1 and three times the ratio is
    [1 - 2^-54], whose floor is 0; the product is rounded to [1.0] and one
    example is sent to the training store. *)
Lemma shuffle_and_split_not_exact_floor :
  (0 <? one_third)%float = true /\ (one_third <? 1)%float = true
  /\ Py.len three_blobs < 2 ^ 53
  /\ (exists r, float_value one_third = Some r
                /\ (inject_Z (Py.len three_blobs) * r
                    == 1 - (1 # 18014398509481984))%Q)
  /\ exact_floor_product (Py.len three_blobs) one_third = Some 0
  /\ split_index (Py.len three_blobs) one_third = Ok 1
  /\ (exists new_train_data new_test_data w',
        shuffle_and_split three_blobs one_third fresh_world
        = (Ok (new_train_data, new_test_data), w')
        /\ Py.len new_train_data = 1 /\ Py.len new_test_data = 2)
  /\ ~ splits_at_exact_floor three_blobs one_third fresh_world.
Proof.
  split; [reflexivity|]. split; [reflexivity|]. split; [reflexivity|].
  split; [eexists; split; [reflexivity|vm_compute; reflexivity]|].
  split; [reflexivity|]. split; [reflexivity|].
  split; [eexists _, _, _; split; [reflexivity|split; reflexivity]|].
  intros (f & new_train_data & new_test_data & w' & Hf & Hrun & Htrain & _).
  injection Hf as <-.
  unfold shuffle_and_split, bind, random_shuffle, lift, ret in Hrun.
  change (split_index (Py.len (Py.shuffle three_blobs (rand (log EvShuffle fresh_world))
                                 (rand_pos (log EvShuffle fresh_world))).1) one_third)
    with (Ok 1 : result Z) in Hrun.
  injection Hrun as <- _ _. discriminate Htrain.
Qed.

(** The bound on the batch is needed: from [2^53] on the number of examples
    itself is rounded, and the index can fall below the floor of the exact
    product. *)
Example split_index_large_batch :
  split_index (2 ^ 54 + 2) one_half = Ok (2 ^ 53)
  /\ exact_floor_product (2 ^ 54 + 2) one_half = Some (2 ^ 53 + 1).
Proof. split; reflexivity. Qed.

(** ** [rebalance] *)

Section RebalanceProperties.

Variable ratio : Q.

Lemma target_count_le (total : nat) : (BinaryDs.target_count ratio total <= total)%nat.
Proof. unfold BinaryDs.target_count. lia. Qed.

(** One category: the examples are moved, none is created or destroyed,
    and the first side ends with the target count. *)
Lemma rebalance_lists_moves (this other : list BinaryDs.example) :
  Permutation ((BinaryDs.rebalance_lists ratio this other).1
               ++ (BinaryDs.rebalance_lists ratio this other).2)
              (this ++ other)
  /\ length (BinaryDs.rebalance_lists ratio this other).1
     = BinaryDs.target_count ratio (length this + length other).
Proof.
  unfold BinaryDs.rebalance_lists.
  pose proof (target_count_le (length this + length other)) as Hle.
  set (k := BinaryDs.target_count ratio (length this + length other)) in *.
  destruct (Nat.leb_spec k (length this)) as [Hk|Hk]; simpl.
  - split; [|rewrite length_take; lia].
    rewrite (Permutation_app_comm other), app_assoc, take_drop. reflexivity.
  - split.
    + rewrite <- app_assoc. apply Permutation_app_head.
      rewrite Permutation_app_comm, take_drop. reflexivity.
    + rewrite length_app, length_drop. lia.
Qed.

Lemma get_rebalance (this other : BinaryDs.t) (c : Z) :
  BinaryDs.get c (BinaryDs.rebalance ratio this other).1
  = (BinaryDs.rebalance_lists ratio (BinaryDs.get c this) (BinaryDs.get c other)).1
  /\ BinaryDs.get c (BinaryDs.rebalance ratio this other).2
     = (BinaryDs.rebalance_lists ratio (BinaryDs.get c this) (BinaryDs.get c other)).2.
Proof.
  unfold BinaryDs.get, BinaryDs.rebalance. simpl. rewrite !lookup_merge.
  unfold BinaryDs.rebalance_this, BinaryDs.rebalance_other.
  destruct (BinaryDs.categories this !! c) as [a|],
           (BinaryDs.categories other !! c) as [b|]; simpl; try (split; reflexivity).
  unfold BinaryDs.rebalance_lists. simpl.
  destruct (_ <=? 0)%nat; simpl; rewrite ?take_nil, ?drop_nil; split; reflexivity.
Qed.

(** The target count is the integer nearest to [total * ratio]. *)
Lemma target_count_nearest (total : nat) :
  (0 <= ratio <= 1)%Q ->
  let x := (inject_Z (Z.of_nat total) * ratio)%Q in
  let k := inject_Z (Z.of_nat (BinaryDs.target_count ratio total)) in
  (Qabs (k - x) <= 1 # 2)%Q
  /\ forall j : Z, (Qabs (k - x) <= Qabs (inject_Z j - x))%Q.
Proof.
  intros [H0 H1] x k.
  assert (0 <= inject_Z (Z.of_nat total))%Q as Ht
    by (change 0%Q with (inject_Z 0); rewrite <- Zle_Qle; lia).
  assert (0 <= x /\ x <= inject_Z (Z.of_nat total))%Q as [Hx0 Hx1] by (unfold x; nra).
  pose proof (Qfloor_le (x + (1 # 2))) as Hfl.
  pose proof (Qlt_floor (x + (1 # 2))) as Hfu.
  set (f := Qfloor (x + (1 # 2))) in *.
  rewrite inject_Z_plus in Hfu. change (inject_Z 1) with 1%Q in Hfu.
  assert (0 <= f <= Z.of_nat total) as Hf.
  { split.
    - destruct (Z_le_gt_dec 0 f) as [?|Hneg]; [assumption|exfalso].
      assert (f + 1 <= 0) as Hle by lia. rewrite Zle_Qle in Hle.
      rewrite inject_Z_plus in Hle. change (inject_Z 1) with 1%Q in Hle.
      change (inject_Z 0) with 0%Q in Hle. lra.
    - destruct (Z_le_gt_dec f (Z.of_nat total)) as [?|Hbig]; [assumption|exfalso].
      assert (Z.of_nat total + 1 <= f) as Hle by lia. rewrite Zle_Qle in Hle.
      rewrite inject_Z_plus in Hle. change (inject_Z 1) with 1%Q in Hle. lra. }
  assert (k = inject_Z f) as Hk.
  { unfold k, BinaryDs.target_count. fold x. fold f. f_equal. lia. }
  rewrite Hk.
  assert (Qabs (inject_Z f - x) <= 1 # 2)%Q as Hhalf
    by (apply Qabs_Qle_condition; split; lra).
  split; [exact Hhalf|].
  intros j. destruct (Z.lt_trichotomy j f) as [Hlt|[->|Hgt]].
  - assert (inject_Z j + 1 <= inject_Z f)%Q as Hj.
    { change 1%Q with (inject_Z 1). rewrite <- inject_Z_plus.
      rewrite <- Zle_Qle. lia. }
    eapply Qle_trans; [exact Hhalf|].
    rewrite <- (Qabs_opp (inject_Z j - x)), Qabs_pos; lra.
  - apply Qle_refl.
  - assert (inject_Z f + 1 <= inject_Z j)%Q as Hj.
    { change 1%Q with (inject_Z 1). rewrite <- inject_Z_plus.
      rewrite <- Zle_Qle. lia. }
    eapply Qle_trans; [exact Hhalf|].
    rewrite Qabs_pos; lra.
Qed.

End RebalanceProperties.

(** The distance between a share [a / t] and a ratio, in examples. *)
Lemma ratio_distance (a t r : Q) :
  (0 < t)%Q -> (Qabs (a / t - r) == Qabs (a - t * r) * / t)%Q.
Proof.
  intros Ht.
  assert (a / t - r == (a - t * r) * / t)%Q as -> by (field; lra).
  rewrite Qabs_Qmult, (Qabs_pos (/ t)); [reflexivity|].
  apply Qlt_le_weak, Qinv_lt_0_compat. assumption.
Qed.

(** C10. For a target ratio in [0,1] and every category, [rebalance] only
    moves examples between the two stores: what the two stores hold for the
    category afterwards is a permutation of what they held before, so the
    total count is unchanged.  Afterwards the count of the store it was
    called on is within half an example of [total * ratio] and no other
    count is nearer; in terms of shares, when the category has examples, its
    share is as near to the ratio as any share [j / total] and nearer than
    one example's worth, [1 / total]. *)
Theorem rebalance_moves_to_nearest_share (ratio : Q) (this other : BinaryDs.t) (c : Z) :
  (0 <= ratio <= 1)%Q ->
  let this' := (BinaryDs.rebalance ratio this other).1 in
  let other' := (BinaryDs.rebalance ratio this other).2 in
  let total :=
    inject_Z (Z.of_nat (length (BinaryDs.get c this) + length (BinaryDs.get c other))) in
  let count := inject_Z (Z.of_nat (length (BinaryDs.get c this'))) in
  Permutation (BinaryDs.get c this' ++ BinaryDs.get c other')
              (BinaryDs.get c this ++ BinaryDs.get c other)
  /\ (length (BinaryDs.get c this') + length (BinaryDs.get c other')
      = length (BinaryDs.get c this) + length (BinaryDs.get c other))%nat
  /\ (Qabs (count - total * ratio) <= 1 # 2)%Q
  /\ (forall j : Z, Qabs (count - total * ratio) <= Qabs (inject_Z j - total * ratio))%Q
  /\ ((0 < total)%Q ->
      (Qabs (count / total - ratio) < 1 / total)%Q
      /\ forall j : Z,
          (Qabs (count / total - ratio) <= Qabs (inject_Z j / total - ratio))%Q).
Proof.
  intros Hratio this' other' total count.
  destruct (get_rebalance ratio this other c) as [Hthis Hother].
  destruct (rebalance_lists_moves ratio (BinaryDs.get c this) (BinaryDs.get c other))
    as [Hperm Hcount].
  fold this' in Hthis. fold other' in Hother. rewrite <- Hthis, <- Hother in Hperm.
  rewrite <- Hthis in Hcount.
  destruct (target_count_nearest ratio
              (length (BinaryDs.get c this) + length (BinaryDs.get c other)) Hratio)
    as [Hhalf Hnear].
  rewrite <- Hcount in Hhalf, Hnear. fold count total in Hhalf, Hnear.
  split; [exact Hperm|]. split.
  { apply Permutation_length in Hperm. rewrite !length_app in Hperm. exact Hperm. }
  split; [exact Hhalf|]. split; [exact Hnear|].
  intros Hpos.
  assert (0 < / total)%Q as Hinv by (apply Qinv_lt_0_compat; assumption).
  split.
  - rewrite ratio_distance by assumption.
    apply Qle_lt_trans with ((1 # 2) * / total)%Q.
    + apply Qmult_le_compat_r; [exact Hhalf|apply Qlt_le_weak; assumption].
    + unfold Qdiv. apply Qmult_lt_compat_r; [assumption|reflexivity].
  - intros j. rewrite !ratio_distance by assumption.
    apply Qmult_le_compat_r; [apply Hnear|apply Qlt_le_weak; assumption].
Qed.

Lemma rebalance_moves_to_nearest_share_witness :
  Permutation
    (BinaryDs.get 0 (BinaryDs.rebalance (1 # 2) four_examples no_example).1
     ++ BinaryDs.get 0 (BinaryDs.rebalance (1 # 2) four_examples no_example).2)
    (BinaryDs.get 0 four_examples ++ BinaryDs.get 0 no_example).
Proof.
  apply (rebalance_moves_to_nearest_share (1 # 2) four_examples no_example 0).
  split; discriminate.
Defined.

(** On these stores two examples stay and the last two are moved. *)
Example rebalance_four_examples :
  BinaryDs.get 0 (BinaryDs.rebalance (1 # 2) four_examples no_example).1 = [[x01]; [x02]]
  /\ BinaryDs.get 0 (BinaryDs.rebalance (1 # 2) four_examples no_example).2
     = [[x03]; [x04]].
Proof. split; reflexivity. Qed.

(** * Further properties of [preprocess.py] *)

(** ** Opening the files of a list *)

Lemma rmap_open_holds (fs : gmap string (list byte)) (files_list : list string)
  (contents : list (list byte)) :
  holds fs files_list contents <-> rmap (open fs) files_list = Ok contents.
Proof.
  unfold holds. revert contents.
  induction files_list as [|path files_list IH]; intros contents; simpl.
  - split.
    + intros H. inversion H. reflexivity.
    + intros [= <-]. constructor.
  - unfold open at 1. split.
    + intros H. inversion H as [|? c ? cs Hc Hcs]; subst. rewrite Hc. simpl.
      apply IH in Hcs. rewrite Hcs. reflexivity.
    + destruct (fs !! path) as [c|] eqn:Hc; [|discriminate]. simpl.
      destruct (rmap (open fs) files_list) as [cs|e] eqn:Hr; [|discriminate].
      simpl. intros [= <-]. constructor; [exact Hc|]. apply IH. reflexivity.
Qed.

Lemma rmap_open_missing (fs : gmap string (list byte)) (pre post : list string)
  (missing : string) :
  Forall (fun path => is_Some (fs !! path)) pre ->
  fs !! missing = None ->
  rmap (open fs) (pre ++ missing :: post) = Err (FileNotFoundError missing).
Proof.
  intros Hpre Hmiss. induction Hpre as [|path pre [c Hc] _ IH]; simpl.
  - unfold open at 1. rewrite Hmiss. reflexivity.
  - unfold open at 1. rewrite Hc. simpl. rewrite IH. reflexivity.
Qed.

(** The two reading loops, whatever the files: they read as [rmap] opens. *)
Lemma read_files_raw_loop_eq (fs : gmap string (list byte)) (files_list : list string) :
  forall functions,
    read_files_raw_loop fs files_list functions
    = rbind (rmap (open fs) files_list) (fun cs => Ok (functions ++ cs)).
Proof.
  induction files_list as [|cur_file files_list IH]; intros functions; simpl.
  - rewrite app_nil_r. reflexivity.
  - destruct (open fs cur_file) as [f|e]; simpl; [|reflexivity].
    rewrite IH. destruct (rmap (open fs) files_list) as [cs|e]; simpl; [|reflexivity].
    rewrite <- app_assoc. reflexivity.
Qed.

Lemma read_files_function_loop_eq (fs : gmap string (list byte))
  (files_list : list string) :
  forall functions,
    read_files_function_loop fs files_list functions
    = rbind (rmap (open fs) files_list)
            (fun cs => Ok (functions ++ concat (map samples_of cs))).
Proof.
  induction files_list as [|cur_file files_list IH]; intros functions; simpl.
  - rewrite app_nil_r. reflexivity.
  - destruct (open fs cur_file) as [f|e]; simpl; [|reflexivity].
    rewrite IH, fold_read_line.
    destruct (rmap (open fs) files_list) as [cs|e]; simpl; [|reflexivity].
    rewrite <- app_assoc. reflexivity.
Qed.

(** ** [read_files_raw] *)

(** X1. When every path of the list names a file, [read_files_raw] returns
    the contents of the files, whole, one per file and in the order of the
    list. *)
Theorem read_files_raw_contents (fs : gmap string (list byte)) (files_list : list string)
  (contents : list (list byte)) :
  holds fs files_list contents ->
  read_files_raw fs files_list = Ok contents
  /\ length contents = length files_list.
Proof.
  intros Hholds. split.
  - unfold read_files_raw. rewrite read_files_raw_loop_eq.
    apply rmap_open_holds in Hholds. rewrite Hholds. reflexivity.
  - symmetry. eapply Forall2_length. exact Hholds.
Qed.

Lemma read_files_raw_contents_witness :
  read_files_raw two_raw_files ["in/b.bin"; "in/a.bin"] = Ok [[x0a; x0b]; five_bytes]
  /\ length [[x0a; x0b]; five_bytes] = length ["in/b.bin"; "in/a.bin"].
Proof.
  apply (read_files_raw_contents two_raw_files ["in/b.bin"; "in/a.bin"]).
  repeat constructor.
Defined.

(** ** [read_and_clean_content]: raw granularity *)

(** X2. At raw granularity with a positive [features],
    [read_and_clean_content] returns the contents of the files themselves,
    one example per file, whatever the value of [features] and whatever the
    lengths of the files. *)
Theorem read_and_clean_content_raw_ignores_features
  (fs : gmap string (list byte)) (files : list string) (contents : list (list byte))
  (features : Z) :
  holds fs files contents -> 0 < features ->
  read_and_clean_content fs files false features = Ok contents.
Proof.
  intros Hholds Hpos. rewrite read_and_clean_content_raw by assumption.
  unfold read_files_raw. rewrite read_files_raw_loop_eq.
  apply rmap_open_holds in Hholds. rewrite Hholds. reflexivity.
Qed.

Lemma read_and_clean_content_raw_ignores_features_witness :
  read_and_clean_content two_raw_files ["in/a.bin"; "in/b.bin"] false 3
  = Ok [five_bytes; [x0a; x0b]].
Proof.
  apply (read_and_clean_content_raw_ignores_features two_raw_files
           ["in/a.bin"; "in/b.bin"] [five_bytes; [x0a; x0b]] 3).
  - repeat constructor.
  - reflexivity.
Defined.

(** X3. At raw granularity, once the files are read, [features = 0] makes
    [read_and_clean_content] raise the [ValueError] of [range] with a zero
    step, and a negative [features] makes it return no example at all. *)
Theorem read_and_clean_content_raw_nonpositive_features
  (fs : gmap string (list byte)) (files : list string) (contents : list (list byte))
  (features : Z) :
  holds fs files contents -> features <= 0 ->
  read_and_clean_content fs files false features
  = if features =? 0
    then Err (ValueError "range() arg 3 must not be zero")
    else Ok [].
Proof.
  intros Hholds Hle. unfold read_and_clean_content, read_files_raw.
  rewrite read_files_raw_loop_eq.
  apply rmap_open_holds in Hholds. rewrite Hholds. simpl.
  unfold Py.range. destruct (Z.eqb_spec features 0) as [->|Hne]; [reflexivity|].
  destruct (Z.ltb_spec 0 features) as [?|_]; [lia|].
  destruct (Z.ltb_spec (Py.len contents) 0) as [Hneg|_];
    [unfold Py.len in Hneg; lia|].
  reflexivity.
Qed.

Lemma read_and_clean_content_raw_nonpositive_features_witness :
  read_and_clean_content two_raw_files ["in/a.bin"; "in/b.bin"] false 0
  = Err (ValueError "range() arg 3 must not be zero")
  /\ read_and_clean_content two_raw_files ["in/a.bin"; "in/b.bin"] false (-2) = Ok [].
Proof.
  split.
  - apply (read_and_clean_content_raw_nonpositive_features two_raw_files
             ["in/a.bin"; "in/b.bin"] [five_bytes; [x0a; x0b]] 0);
      [repeat constructor|discriminate].
  - apply (read_and_clean_content_raw_nonpositive_features two_raw_files
             ["in/a.bin"; "in/b.bin"] [five_bytes; [x0a; x0b]] (-2));
      [repeat constructor|discriminate].
Defined.

(** ** [read_and_clean_content]: files that cannot be opened *)

(** X4. When a path of the list names no file, [read_and_clean_content]
    raises [FileNotFoundError] for the first such path, at either
    granularity and whatever [features] is: nothing is returned for the
    files that came before, and a zero [features] is not reported. *)
Theorem read_and_clean_content_missing_file
  (fs : gmap string (list byte)) (pre post : list string) (missing : string)
  (function : bool) (features : Z) :
  Forall (fun path => is_Some (fs !! path)) pre ->
  fs !! missing = None ->
  read_and_clean_content fs (pre ++ missing :: post) function features
  = Err (FileNotFoundError missing).
Proof.
  intros Hpre Hmiss. unfold read_and_clean_content, read_files_function, read_files_raw.
  rewrite read_files_function_loop_eq, read_files_raw_loop_eq.
  rewrite rmap_open_missing by assumption. destruct function; reflexivity.
Qed.

Lemma read_and_clean_content_missing_file_witness :
  read_and_clean_content two_raw_files ["in/a.bin"; "in/c.bin"; "in/b.bin"] false 0
  = Err (FileNotFoundError "in/c.bin").
Proof.
  apply (read_and_clean_content_missing_file two_raw_files ["in/a.bin"] ["in/b.bin"]
           "in/c.bin" false 0).
  - repeat constructor. eexists. reflexivity.
  - reflexivity.
Defined.

(** ** [encode_opcodes]: decoding one sample *)

Lemma rmap_app_Err {A B} (f : A -> result B) (good rest : list A) (bad : A) (e : exn) :
  Forall (fun a => exists b, f a = Ok b) good ->
  f bad = Err e ->
  rmap f (good ++ bad :: rest) = Err e.
Proof.
  intros Hgood Hbad. induction Hgood as [|a good [b Hb] _ IH]; simpl.
  - rewrite Hbad. reflexivity.
  - rewrite Hb. simpl. rewrite IH. reflexivity.
Qed.

Lemma encode_opcodes_unfold (func_list : list string) :
  encode_opcodes func_list = rmap decode_sample func_list.
Proof.
  unfold encode_opcodes. induction func_list as [|x l IH]; simpl; [reflexivity|].
  unfold decode_sample at 1. rewrite IH. reflexivity.
Qed.

(** Two hexadecimal digits at the head of a sample decode to their byte. *)
Lemma decode_sample_byte (b : byte) (rest : string) :
  decode_sample (String.append (hex_of_byte b) rest)
  = rbind (decode_sample rest) (fun bs => Ok (b :: bs)).
Proof. unfold decode_sample. destruct b; reflexivity. Qed.

Lemma decode_sample_comma (rest : string) :
  decode_sample (String ","%char rest) = decode_sample rest.
Proof. reflexivity. Qed.

Lemma decode_sample_to_opcodes (bs : list byte) :
  decode_sample (to_opcodes bs) = Ok bs.
Proof.
  induction bs as [|b bs IH]; [reflexivity|].
  destruct bs as [|b' bs].
  - change (to_opcodes [b]) with (String.append (hex_of_byte b) EmptyString).
    rewrite decode_sample_byte. reflexivity.
  - change (to_opcodes (b :: b' :: bs))
      with (String.append (hex_of_byte b) (String ","%char (to_opcodes (b' :: bs)))).
    rewrite decode_sample_byte, decode_sample_comma, IH. reflexivity.
Qed.

(** X5. Decoding inverts the sample format: for every list of byte strings,
    each written as two upper-case hexadecimal digits per byte with commas
    between the bytes, [encode_opcodes] returns the byte strings. *)
Theorem encode_opcodes_to_opcodes (examples : list (list byte)) :
  encode_opcodes (map to_opcodes examples) = Ok examples.
Proof.
  rewrite encode_opcodes_unfold.
  induction examples as [|bs examples IH]; simpl; [reflexivity|].
  rewrite decode_sample_to_opcodes, IH. reflexivity.
Qed.

Lemma hex_digit_not_space (c : ascii) :
  is_Some (Py.hex_digit c) -> Py.is_space c = false.
Proof.
  destruct c as [[] [] [] [] [] [] [] []]; intros [n Hn];
    first [discriminate Hn | reflexivity].
Qed.

(** [bytes.fromhex] on digits only: an even number of them is decoded two
    by two, an odd number is refused. *)
Lemma fromhex_digits (n : nat) :
  forall d, (String.length d <= n)%nat -> hex_digits_only d = true ->
    if Nat.even (String.length d)
    then exists bs, Py.fromhex d = Ok bs /\ length bs = (String.length d / 2)%nat
    else exists msg, Py.fromhex d = Err (ValueError msg).
Proof.
  induction n as [|n IH]; intros d Hlen Hhex.
  - destruct d; [|simpl in Hlen; lia]. simpl. exists []. split; reflexivity.
  - destruct d as [|c1 d]; [simpl; exists []; split; reflexivity|].
    simpl in Hhex. apply andb_prop in Hhex as [Hc1 Hhex].
    apply bool_decide_eq_true in Hc1.
    pose proof (hex_digit_not_space c1 Hc1) as Hsp1. destruct Hc1 as [top Htop].
    destruct d as [|c2 d].
    + simpl. rewrite Hsp1, Htop. eexists. reflexivity.
    + simpl in Hhex. apply andb_prop in Hhex as [Hc2 Hhex].
      apply bool_decide_eq_true in Hc2. destruct Hc2 as [bot Hbot].
      assert (String.length d <= n)%nat as Hd by (simpl in Hlen; lia).
      specialize (IH d Hd Hhex).
      cbn [Py.fromhex]. rewrite Hsp1, Htop, Hbot.
      change (String.length (String c1 (String c2 d))) with (S (S (String.length d))).
      change (Nat.even (S (S (String.length d)))) with (Nat.even (String.length d)).
      destruct (Nat.even (String.length d)).
      * destruct IH as (bs & -> & Hbs). simpl rbind. eexists. split; [reflexivity|].
        cbn [length]. rewrite Hbs.
        assert (forall k, (S (S k) / 2 = S (k / 2))%nat) as Hdiv.
        { intros k. replace (S (S k)) with (1 * 2 + k)%nat by lia.
          rewrite Nat.div_add_l by lia. reflexivity. }
        rewrite Hdiv. reflexivity.
      * destruct IH as (msg & ->). simpl. eexists. reflexivity.
Qed.

(** Removing the commas of a sample leaves its digits. *)
Lemma replace_commas_digits (s : string) :
  digits_and_commas s = true ->
  hex_digits_only (Py.replace ","%char EmptyString s) = true
  /\ String.length (Py.replace ","%char EmptyString s) = count_digits s.
Proof.
  induction s as [|c s IH]; simpl; [split; reflexivity|].
  intros H. apply andb_prop in H as [Hc Hs]. destruct (IH Hs) as [IH1 IH2].
  destruct (Ascii.eqb c ","%char); simpl in *.
  - split; assumption.
  - rewrite Hc, IH1, IH2. split; reflexivity.
Qed.

(** X6. A sample made of hexadecimal digits and commas is decoded exactly
    when it has an even number of digits, to half as many bytes; with an odd
    number of digits it is refused with a [ValueError].  Only the digits
    count: where the commas stand makes no difference. *)
Theorem decode_sample_digits_parity (s : string) :
  digits_and_commas s = true ->
  if Nat.even (count_digits s)
  then exists bs, decode_sample s = Ok bs /\ length bs = (count_digits s / 2)%nat
  else exists msg, decode_sample s = Err (ValueError msg).
Proof.
  intros Hs. destruct (replace_commas_digits s Hs) as [Hhex Hlen].
  unfold decode_sample. rewrite <- Hlen.
  apply (fromhex_digits (String.length (Py.replace ","%char EmptyString s)));
    [lia|assumption].
Qed.

Lemma decode_sample_digits_parity_witness :
  (exists bs, decode_sample "D,EAD" = Ok bs /\ length bs = 2%nat)
  /\ (exists msg, decode_sample "DE,A" = Err (ValueError msg)).
Proof.
  split.
  - apply (decode_sample_digits_parity "D,EAD"). reflexivity.
  - apply (decode_sample_digits_parity "DE,A"). reflexivity.
Defined.

(** ** [read_and_clean_content]: function granularity, malformed samples *)

(** X7. At function granularity one sample that cannot be decoded makes the
    whole call fail with the error of that sample, the first such one: the
    examples of the samples before it are not returned. *)
Theorem read_and_clean_content_malformed_sample
  (fs : gmap string (list byte)) (files : list string) (contents : list (list byte))
  (features : Z) (good rest : list string) (bad : string) (e : exn) :
  holds fs files contents ->
  concat (map samples_of contents) = good ++ bad :: rest ->
  Forall (fun line => exists ex, decode_sample line = Ok ex) good ->
  decode_sample bad = Err e ->
  read_and_clean_content fs files true features = Err e.
Proof.
  intros Hholds Hsamples Hgood Hbad.
  unfold read_and_clean_content, read_files_function.
  rewrite read_files_function_loop_eq.
  apply rmap_open_holds in Hholds. rewrite Hholds. simpl.
  rewrite encode_opcodes_unfold, Hsamples. apply rmap_app_Err; assumption.
Qed.

Lemma read_and_clean_content_malformed_sample_witness :
  read_and_clean_content malformed_text_file ["in/a.txt"] true 2
  = Err (ValueError "non-hexadecimal number found in fromhex() arg").
Proof.
  apply (read_and_clean_content_malformed_sample malformed_text_file ["in/a.txt"]
           [list_byte_of_string malformed_text] 2 ["DE,AD"] ["01"] "ZZ").
  - repeat constructor.
  - reflexivity.
  - repeat constructor. eexists. reflexivity.
  - reflexivity.
Defined.

(** ** [read_files_function]: the samples are single lines *)

Lemma lines_shape (s : string) :
  Forall (fun l => exists body,
            lacks Py.newline body = true
            /\ (l = body \/ l = String.append body (String Py.newline EmptyString)))
         (Py.lines s).
Proof.
  induction s as [|a s IH]; simpl; [constructor|].
  destruct (Ascii.eqb a Py.newline) eqn:Ha.
  - constructor; [|assumption]. exists EmptyString. split; [reflexivity|].
    right. apply Ascii.eqb_eq in Ha. subst a. reflexivity.
  - destruct (Py.lines s) as [|l ls].
    + constructor; [|constructor]. exists (String a EmptyString). split.
      * simpl. rewrite Ha. reflexivity.
      * left. reflexivity.
    + inversion IH as [|? ? (body & Hbody & Hl) Hls]; subst.
      constructor; [|assumption]. exists (String a body). split.
      * simpl. rewrite Ha, Hbody. reflexivity.
      * destruct Hl as [->| ->]; [left|right]; reflexivity.
Qed.

Lemma rstrip_lacks (c : ascii) (body : string) :
  lacks c body = true ->
  Py.rstrip c body = body
  /\ Py.rstrip c (String.append body (String c EmptyString)) = body.
Proof.
  induction body as [|a body IH]; simpl.
  - rewrite Ascii.eqb_refl. split; reflexivity.
  - intros H. apply andb_prop in H as [Ha Hbody].
    apply negb_true_iff in Ha. destruct (IH Hbody) as [-> ->].
    rewrite Ha. destruct body; split; reflexivity.
Qed.

Lemma lstrip_lacks (c : ascii) (body : string) :
  lacks c body = true -> Py.lstrip c body = body.
Proof.
  destruct body as [|a body]; simpl; [reflexivity|].
  intros H. apply andb_prop in H as [Ha _]. apply negb_true_iff in Ha.
  rewrite Ha. reflexivity.
Qed.

Lemma samples_of_lack_newline (content : list byte) :
  Forall (fun line => lacks Py.newline line = true) (samples_of content).
Proof.
  unfold samples_of, text_lines.
  generalize (lines_shape (Py.universal_newlines (string_of_list_byte content))).
  generalize (Py.lines (Py.universal_newlines (string_of_list_byte content))).
  intros ls Hls. induction Hls as [|l ls (body & Hbody & Hl) _ IH]; simpl; [constructor|].
  assert (Py.strip Py.newline l = body) as ->.
  { unfold Py.strip. destruct (rstrip_lacks Py.newline body Hbody) as [H1 H2].
    destruct Hl as [->| ->]; [rewrite H1|rewrite H2]; apply lstrip_lacks; assumption. }
  destruct (retained body); [constructor|]; assumption.
Qed.

(** X9. Every sample that [read_files_function] returns is a single line
    without its terminator: it contains no line feed, and it is not
    empty. *)
Theorem read_files_function_single_lines
  (fs : gmap string (list byte)) (files_list : list string) (samples : list string) :
  read_files_function fs files_list = Ok samples ->
  Forall (fun line => lacks Py.newline line = true /\ line <> EmptyString) samples.
Proof.
  unfold read_files_function. rewrite read_files_function_loop_eq.
  destruct (rmap (open fs) files_list) as [contents|e]; [|discriminate].
  simpl. intros [= <-]. apply List.Forall_forall. intros line Hin.
  split.
  - apply in_concat in Hin as (x & Hx & Hin).
    apply in_map_iff in Hx as (c & <- & _).
    pose proof (samples_of_lack_newline c) as Hall.
    rewrite List.Forall_forall in Hall. apply Hall. assumption.
  - intros ->. apply list_elem_of_In, samples_retained in Hin. discriminate.
Qed.

Lemma read_files_function_single_lines_witness :
  Forall (fun line => lacks Py.newline line = true /\ line <> EmptyString)
         ["DE,AD"; "ZZ"; "01"].
Proof.
  apply (read_files_function_single_lines malformed_text_file ["in/a.txt"]).
  reflexivity.
Defined.

(** ** [read_dataset]: its outcomes *)

(** X10. After a successful [read_dataset] the store has the requested
    number of features and the requested granularity, whether its file was
    found or not; it holds the categories of the file when the file was
    found, and the categories it held before otherwise. *)
Theorem read_dataset_success (r : store_ref) (function : bool) (features : Z)
  (w w' : World) :
  read_dataset r function features w = (Ok tt, w') ->
  BinaryDs.get_features (store r w') = Some features
  /\ BinaryDs.get_function_granularity (store r w') = Some function
  /\ BinaryDs.categories (store r w')
     = match disk w !! BinaryDs.path (store r w) with
       | Some f => BinaryDs.file_categories f
       | None => BinaryDs.categories (store r w)
       end.
Proof.
  rewrite read_dataset_unfold.
  destruct (disk w !! BinaryDs.path (store r w)) as [f|].
  - case_bool_decide as Hg; [discriminate|].
    case_bool_decide as Hn; [discriminate|].
    intros [= <-]. unfold world_loaded. rewrite store_with_store. simpl.
    split; [|split; [|reflexivity]].
    + destruct (decide (BinaryDs.file_features f = Some features)); [assumption|].
      contradiction.
    + destruct (decide (BinaryDs.file_function_granularity f = Some function));
        [assumption|contradiction].
  - intros [= <-]. destruct r; repeat split.
Qed.

Lemma read_dataset_success_witness :
  BinaryDs.get_features (store Train (world_loaded Train
      (BinaryDs.File (Some 4) (Some true) {[ 0 := [[xde; xad; xc0; xde]] ]})
      persisted_world)) = Some 4.
Proof.
  apply (read_dataset_success Train true 4 persisted_world). reflexivity.
Defined.



(** ** [run_preprocess] as a whole *)

(** X12. A run of [run_preprocess] ends only when no directory under
    [input_dir] holds a file, and then it raises the [FileNotFoundError] of
    [gather_files] right after creating the two stores: neither store has
    been read, and the disk is as it was.  When some directory holds a file
    the run never ends. *)
Theorem run_preprocess_outcomes (ratio : Q) (input_dir : string) (category : Z)
  (model_dir : string) (function : bool) (features : Z) (split : float) (w : World) :
  (forall fuel out,
      run_preprocess ratio fuel input_dir category model_dir function features split w
      = Some out ->
      out = (Err (FileNotFoundError no_files_message), world_init model_dir w)
      /\ Forall (fun e => e.2 = []) (os_walk (fs_dirs w) input_dir))
  /\ (Forall (fun e => e.2 = []) (os_walk (fs_dirs w) input_dir) ->
      forall fuel,
        run_preprocess ratio (S fuel) input_dir category model_dir function features
                       split w
        = Some (Err (FileNotFoundError no_files_message), world_init model_dir w))
  /\ (Exists (fun e => e.2 <> []) (os_walk (fs_dirs w) input_dir) ->
      forall fuel,
        run_preprocess ratio fuel input_dir category model_dir function features split w
        = None)
  /\ trace (world_init model_dir w) = trace w
  /\ disk (world_init model_dir w) = disk w.
Proof.
  assert (fs_dirs (world_init model_dir w) = fs_dirs w) as Hdirs by reflexivity.
  split; [|split; [|split; [|split; reflexivity]]].
  - intros fuel out. unfold run_preprocess. fold (world_init model_dir w).
    rewrite Hdirs.
    destruct (gather_files fuel (fs_dirs w) input_dir function) as [r|] eqn:Hg;
      [|discriminate].
    apply gather_files_returns in Hg as [Hall ->]. intros [= <-].
    split; [reflexivity|assumption].
  - intros Hall fuel. unfold run_preprocess. fold (world_init model_dir w).
    rewrite Hdirs.
    destruct (gather_files_outer_empty input_dir fuel _ Hall []) as (out & Hout & _).
    destruct (gather_files (S fuel) (fs_dirs w) input_dir function) as [r|] eqn:Hg.
    + apply gather_files_returns in Hg as [_ ->]. reflexivity.
    + unfold gather_files in Hg. rewrite Hout in Hg.
      destruct (length _ =? 0)%nat; discriminate.
  - intros Hex fuel. unfold run_preprocess. fold (world_init model_dir w).
    rewrite Hdirs. unfold gather_files.
    rewrite gather_files_outer_diverges; [reflexivity|assumption].
Qed.

(** A persisted training store is not even looked at: with an empty input
    directory the run ends in [FileNotFoundError] and the trace is empty. *)
Example run_preprocess_empty_dir :
  run_preprocess (1 # 2) 1 "in" 0 "model" true 4 one_half persisted_world_empty_dir
  = Some (Err (FileNotFoundError no_files_message),
          world_init "model" persisted_world_empty_dir)
  /\ trace (world_init "model" persisted_world_empty_dir) = [].
Proof. split; reflexivity. Qed.

(** ** Lines 38 to 49: any ratio *)

Lemma slice_prefix_length_clamp {A} (l : list A) (k : Z) :
  Py.len (Py.slice l None (Some k)) = Py.clamp (Py.len l) k.
Proof.
  unfold Py.slice, Py.len. change (Z.to_nat 0) with 0%nat. rewrite drop_0, Z.sub_0_r.
  rewrite length_take. unfold Py.clamp.
  destruct (Z.ltb_spec k 0); lia.
Qed.

(** Lines 38 to 41 when the index is computed: the shuffled batch is cut at
    that index. *)
Lemma shuffle_and_split_Ok (data : list BinaryDs.example) (split : float) (w : World)
  (k : Z) :
  split_index (Py.len data) split = Ok k ->
  shuffle_and_split data split w
  = (Ok (Py.slice (Py.shuffle data (rand w) (rand_pos w)).1 None (Some k),
         Py.slice (Py.shuffle data (rand w) (rand_pos w)).1 (Some k) None),
     with_rand_pos (Py.shuffle data (rand w) (rand_pos w)).2 (log EvShuffle w)).
Proof.
  intros Hk. unfold shuffle_and_split, bind, random_shuffle, lift, ret.
  pose proof (shuffle_length data (rand w) (rand_pos w)) as Hlen.
  change (rand (log EvShuffle w)) with (rand w).
  change (rand_pos (log EvShuffle w)) with (rand_pos w).
  destruct (Py.shuffle data (rand w) (rand_pos w)) as [data' pos]. simpl in *.
  assert (Py.len data' = Py.len data) as -> by (unfold Py.len; congruence).
  rewrite Hk. reflexivity.
Qed.

(** Lines 38 to 41 when the index cannot be computed. *)
Lemma shuffle_and_split_Err (data : list BinaryDs.example) (split : float) (w : World)
  (e : exn) :
  split_index (Py.len data) split = Err e ->
  shuffle_and_split data split w
  = (Err e, with_rand_pos (Py.shuffle data (rand w) (rand_pos w)).2 (log EvShuffle w)).
Proof.
  intros Hk. unfold shuffle_and_split, bind, random_shuffle, lift, ret.
  pose proof (shuffle_length data (rand w) (rand_pos w)) as Hlen.
  change (rand (log EvShuffle w)) with (rand w).
  change (rand_pos (log EvShuffle w)) with (rand_pos w).
  destruct (Py.shuffle data (rand w) (rand_pos w)) as [data' pos]. simpl in *.
  assert (Py.len data' = Py.len data) as -> by (unfold Py.len; congruence).
  rewrite Hk. reflexivity.
Qed.

(** X13. Whatever the ratio, in (0,1) or not, as long as
    [floor(len(data) * split)] exists: the two parts that the splitter
    returns are a prefix and the matching suffix of the shuffled batch, so
    together they are a permutation of the batch, no example lost or
    repeated.  The training part has as many examples as the index clamped
    the way a slice bound is: a negative index counts from the end, an index
    beyond the batch takes it whole. *)
Theorem shuffle_and_split_any_ratio (data : list BinaryDs.example) (split : float)
  (w : World) (k : Z) :
  split_index (Py.len data) split = Ok k ->
  exists new_train_data new_test_data w',
    shuffle_and_split data split w = (Ok (new_train_data, new_test_data), w')
    /\ new_train_data ++ new_test_data = (Py.shuffle data (rand w) (rand_pos w)).1
    /\ Permutation (new_train_data ++ new_test_data) data
    /\ Py.len new_train_data = Py.clamp (Py.len data) k
    /\ Py.len new_test_data = Py.len data - Py.clamp (Py.len data) k.
Proof.
  intros Hk. rewrite (shuffle_and_split_Ok data split w k Hk).
  pose proof (shuffle_Permutation data (rand w) (rand_pos w)) as Hperm.
  pose proof (shuffle_length data (rand w) (rand_pos w)) as Hlen.
  set (data' := (Py.shuffle data (rand w) (rand_pos w)).1) in *.
  assert (Py.len data' = Py.len data) as Hlen' by (unfold Py.len; congruence).
  pose proof (slice_split data' k) as Hsplit.
  pose proof (slice_prefix_length_clamp data' k) as Hpre.
  assert (Py.len (Py.slice data' None (Some k)) + Py.len (Py.slice data' (Some k) None)
          = Py.len data') as Hsum.
  { unfold Py.len. rewrite <- Nat2Z.inj_add, <- length_app, Hsplit. reflexivity. }
  eexists _, _, _. split; [reflexivity|].
  split; [exact Hsplit|]. split; [rewrite Hsplit; exact Hperm|].
  rewrite <- Hlen'. split; [exact Hpre|lia].
Qed.

Lemma shuffle_and_split_any_ratio_witness :
  exists new_train_data new_test_data w',
    shuffle_and_split four_blobs minus_one_half fresh_world
    = (Ok (new_train_data, new_test_data), w')
    /\ new_train_data ++ new_test_data
       = (Py.shuffle four_blobs (rand fresh_world) (rand_pos fresh_world)).1
    /\ Permutation (new_train_data ++ new_test_data) four_blobs
    /\ Py.len new_train_data = Py.clamp (Py.len four_blobs) (-2)
    /\ Py.len new_test_data = Py.len four_blobs - Py.clamp (Py.len four_blobs) (-2).
Proof.
  apply (shuffle_and_split_any_ratio four_blobs minus_one_half fresh_world (-2)).
  reflexivity.
Defined.

(** X14. When [floor(len(data) * split)] does not exist (a ratio that is
    not a number, an infinite product), lines 38 to 49 raise the error of
    [math.floor] after the shuffle and before any call on a store: both
    stores and the disk are as they were. *)
Theorem store_new_data_bad_ratio (ratio : Q) (data : list BinaryDs.example)
  (category : Z) (split : float) (w : World) (e : exn) :
  split_index (Py.len data) split = Err e ->
  exists w',
    store_new_data ratio data category split w = (Err e, w')
    /\ trace w' = trace w ++ [EvShuffle]
    /\ train w' = train w /\ test w' = test w /\ disk w' = disk w.
Proof.
  intros Hk. unfold store_new_data, bind.
  rewrite (shuffle_and_split_Err data split w e Hk).
  eexists. split; [reflexivity|]. repeat split.
Qed.

Lemma store_new_data_bad_ratio_witness :
  exists w',
    store_new_data (1 # 2) four_blobs 0 PrimFloat.nan fresh_world
    = (Err (ValueError "cannot convert float NaN to integer"), w')
    /\ trace w' = trace fresh_world ++ [EvShuffle]
    /\ train w' = train fresh_world /\ test w' = test fresh_world
    /\ disk w' = disk fresh_world.
Proof.
  apply (store_new_data_bad_ratio (1 # 2) four_blobs 0 PrimFloat.nan fresh_world).
  reflexivity.
Defined.

(** X15. When the index exists, lines 38 to 49 succeed and lose or repeat
    no example: for every category, what the two stores hold together
    afterwards is a permutation of what they held before, with the batch
    added for the category of the run.  The disk is as it was. *)
Theorem store_new_data_conserves (ratio : Q) (data : list BinaryDs.example)
  (category : Z) (split : float) (w : World) (k : Z) :
  split_index (Py.len data) split = Ok k ->
  exists w',
    store_new_data ratio data category split w = (Ok tt, w')
    /\ (forall c,
          Permutation
            (BinaryDs.get c (train w') ++ BinaryDs.get c (test w'))
            (BinaryDs.get c (train w) ++ BinaryDs.get c (test w)
             ++ (if decide (c = category) then data else [])))
    /\ disk w' = disk w.
Proof.
  intros Hk. unfold store_new_data, bind.
  rewrite (shuffle_and_split_Ok data split w k Hk).
  pose proof (shuffle_Permutation data (rand w) (rand_pos w)) as Hperm.
  set (data' := (Py.shuffle data (rand w) (rand_pos w)).1) in *.
  set (w1 := with_rand_pos _ _).
  cbn [fst snd]. rewrite append_new_data_unfold.
  set (tr := Py.slice data' None (Some k)). set (te := Py.slice data' (Some k) None).
  assert (Permutation (tr ++ te) data) as Hparts
    by (unfold tr, te; rewrite slice_split; exact Hperm).
  unfold Ds.rebalance.
  set (wa := world_appended category tr te w1).
  change (store Train (log EvRebalance wa)) with (train wa).
  change (store Test (log EvRebalance wa)) with (test wa).
  pose proof (get_rebalance ratio (train wa) (test wa)) as Hget.
  destruct (BinaryDs.rebalance ratio (train wa) (test wa)) as [a b]. simpl in Hget.
  eexists. split; [reflexivity|]. split; [|reflexivity].
  intros c. simpl. destruct (Hget c) as [-> ->].
  destruct (rebalance_lists_moves ratio (BinaryDs.get c (train wa))
              (BinaryDs.get c (test wa))) as [Hmove _].
  etransitivity; [exact Hmove|]. unfold wa, world_appended. simpl.
  change (train w1) with (train w). change (test w1) with (test w).
  destruct (decide (c = category)) as [->|Hne].
  - rewrite !get_set_eq. rewrite <- Hparts.
    rewrite <- !app_assoc. apply Permutation_app_head.
    rewrite !app_assoc. apply Permutation_app_tail. apply Permutation_app_comm.
  - rewrite !get_set_ne by congruence. rewrite app_nil_r. reflexivity.
Qed.

Lemma store_new_data_conserves_witness :
  exists w',
    store_new_data (1 # 2) four_blobs 0 one_half fresh_world = (Ok tt, w')
    /\ (forall c,
          Permutation
            (BinaryDs.get c (train w') ++ BinaryDs.get c (test w'))
            (BinaryDs.get c (train fresh_world) ++ BinaryDs.get c (test fresh_world)
             ++ (if decide (c = 0) then four_blobs else [])))
    /\ disk w' = disk fresh_world.
Proof.
  apply (store_new_data_conserves (1 # 2) four_blobs 0 one_half fresh_world 2).
  reflexivity.
Defined.

(** ** The append step, run after run *)

Lemma set_set (c : Z) (l1 l2 : list BinaryDs.example) (ds : BinaryDs.t) :
  BinaryDs.set c l2 (BinaryDs.set c l1 ds) = BinaryDs.set c l2 ds.
Proof. unfold BinaryDs.set. simpl. rewrite insert_insert_eq. reflexivity. Qed.

Lemma set_commute (c1 c2 : Z) (l1 l2 : list BinaryDs.example) (ds : BinaryDs.t) :
  c1 <> c2 ->
  BinaryDs.set c2 l2 (BinaryDs.set c1 l1 ds) = BinaryDs.set c1 l1 (BinaryDs.set c2 l2 ds).
Proof.
  intros Hne. unfold BinaryDs.set. simpl. f_equal.
  apply insert_insert_ne. congruence.
Qed.

(** X16. Two append steps for the same category leave the stores as one
    append step with the two batches one after the other: the examples of
    successive runs accumulate in the order of the runs. *)
Theorem append_new_data_twice (category : Z)
  (train1 test1 train2 test2 : list BinaryDs.example) (w : World) :
  let twice :=
    (append_new_data category train2 test2
       (append_new_data category train1 test1 w).2).2 in
  let once := (append_new_data category (train1 ++ train2) (test1 ++ test2) w).2 in
  train twice = train once /\ test twice = test once.
Proof.
  rewrite !append_new_data_unfold. unfold world_appended. simpl.
  rewrite !get_set_eq, !set_set, <- !app_assoc. split; reflexivity.
Qed.

(** X17. Append steps for two different categories do not interfere: in
    either order they leave the same stores. *)
Theorem append_new_data_commutes (c1 c2 : Z)
  (train1 test1 train2 test2 : list BinaryDs.example) (w : World) :
  c1 <> c2 ->
  let first_c1 :=
    (append_new_data c2 train2 test2 (append_new_data c1 train1 test1 w).2).2 in
  let first_c2 :=
    (append_new_data c1 train1 test1 (append_new_data c2 train2 test2 w).2).2 in
  train first_c1 = train first_c2 /\ test first_c1 = test first_c2.
Proof.
  intros Hne. rewrite !append_new_data_unfold. unfold world_appended. simpl.
  rewrite !get_set_ne by congruence.
  split; apply set_commute; assumption.
Qed.

Lemma append_new_data_commutes_witness :
  train (append_new_data 1 [[x02]] [] (append_new_data 0 [[x01]] [] fresh_world).2).2
  = train (append_new_data 0 [[x01]] [] (append_new_data 1 [[x02]] [] fresh_world).2).2
  /\ test (append_new_data 1 [[x02]] [] (append_new_data 0 [[x01]] [] fresh_world).2).2
     = test (append_new_data 0 [[x01]] [] (append_new_data 1 [[x02]] [] fresh_world).2).2.
Proof.
  apply (append_new_data_commutes 0 1 [[x01]] [] [[x02]] [] fresh_world).
  discriminate.
Defined.
